(** * arbitrage-pol: the opportunity evaluator and its trade decision

    A shallow embedding of [src/index.js] (module [Index]) and of the second
    script of the repository, [src/unnamed/part_001] (module [Part001]).

    Token amounts, gas prices and profits are [ethers] [BigNumber]s in
    [index.js]: unbounded integers, here [Z], with [div] truncating towards
    zero ([Z.quot]).  The Uniswap and SushiSwap SDKs, the JSON-RPC provider,
    the CoinGecko API, the wallet and [Math.random] are not part of the
    repository: the SDK is an interface ([Sdk]) whose operations may throw,
    and every answer of the outside world is a field of a [World] record.
    Two SDKs are given for the examples: [Demo], in which the calls the
    scripts make on SDK objects do what the scripts expect of them, and
    [Imported], in which they do what the two imported packages do. *)

From Stdlib Require Import ZArith QArith List String Bool Lia.
Import ListNotations.
#[local] Open Scope string_scope.
#[local] Open Scope Z_scope.

(** ** Exceptions *)

(** A JavaScript computation returns a value or throws. *)
Inductive Result (A : Type) : Type :=
| Ok (a : A)
| Throw (msg : string).
Arguments Ok {A} a.
Arguments Throw {A} msg.

Definition andThen {A B} (r : Result A) (k : A -> Result B) : Result B :=
  match r with
  | Ok a => k a
  | Throw e => Throw e
  end.

Notation "'let*' x ':=' r 'in' k" := (andThen r (fun x => k))
  (at level 10, x name, r at level 100, k at level 200).

(** ** ethers BigNumber *)

Module BigNumber.
Definition mul (a b : Z) : Z := a * b.
Definition sub (a b : Z) : Z := a - b.
Definition gt (a b : Z) : bool := a >? b.

(** [div] is integer division, rounding towards zero; a zero divisor
    throws. *)
Definition div (a b : Z) : Result Z :=
  if b =? 0 then Throw "division-by-zero" else Ok (Z.quot a b).

Definition MAX_SAFE : Z := 2 ^ 53 - 1.

(** [toNumber] throws outside the safe integer range of a double. *)
Definition toNumber (a : Z) : Result Z :=
  if (- MAX_SAFE <=? a) && (a <=? MAX_SAFE) then Ok a else Throw "overflow".

(** [BigNumber.from(x)] for a JavaScript number [x], here the rational the
    double denotes: a number with a fractional part throws an underflow
    fault, an integer at or beyond the safe bound an overflow fault. *)
Definition fromNumber (x : Q) : Result Z :=
  if negb (Pos.eqb (Qden (Qred x)) 1) then Throw "underflow"
  else if (MAX_SAFE <=? Qnum (Qred x)) || (Qnum (Qred x) <=? - MAX_SAFE)
  then Throw "overflow"
  else Ok (Qnum (Qred x)).

(** [a.gt(x)] with a JavaScript number as argument, which is converted
    first. *)
Definition gtNumber (a : Z) (x : Q) : Result bool :=
  let* b := fromNumber x in Ok (gt a b).
End BigNumber.

(** ** JavaScript numbers

    The numbers [part_001] computes with are the doubles of integers (of
    the decimal strings of [BigNumber]s) and the differences of such
    doubles, which are integers again, an infinity or [NaN]. *)

Module Number.
Inductive t : Type :=
| Finite (x : Z)
| PositiveInfinity
| NegativeInfinity
| NaN.

(** The double nearest to the integer [m >= 0], a significand of 53 bits
    with ties to the even one; a result of [2 ^ 1024] or more stands for
    what lies beyond the largest double. *)
Definition roundMagnitude (m : Z) : Z :=
  if m <? 2 ^ 53 then m
  else
    let e := Z.log2 m - 52 in
    let q := Z.shiftr m e in
    let r := m - Z.shiftl q e in
    let half := 2 ^ (e - 1) in
    let q' := if (half <? r) || ((r =? half) && Z.odd q) then q + 1 else q in
    Z.shiftl q' e.

(** [Number(s)] for the decimal string [s] of the integer [a], and the
    rounding of an exact integer result. *)
Definition ofInteger (a : Z) : t :=
  let m := roundMagnitude (Z.abs a) in
  if 2 ^ 1024 <=? m
  then (if a <? 0 then NegativeInfinity else PositiveInfinity)
  else Finite (Z.sgn a * m).

(** [x - y]. *)
Definition sub (x y : t) : t :=
  match x, y with
  | NaN, _ | _, NaN => NaN
  | Finite a, Finite b => ofInteger (a - b)
  | PositiveInfinity, PositiveInfinity => NaN
  | NegativeInfinity, NegativeInfinity => NaN
  | PositiveInfinity, _ => PositiveInfinity
  | NegativeInfinity, _ => NegativeInfinity
  | Finite _, PositiveInfinity => NegativeInfinity
  | Finite _, NegativeInfinity => PositiveInfinity
  end.

(** [x > r] and [x >= r] for a finite number [r]; every comparison with
    [NaN] is false. *)
Definition gt (x : t) (r : Q) : bool :=
  match x with
  | Finite a => negb (Qle_bool (inject_Z a) r)
  | PositiveInfinity => true
  | NegativeInfinity | NaN => false
  end.

Definition ge (x : t) (r : Q) : bool :=
  match x with
  | Finite a => Qle_bool r (inject_Z a)
  | PositiveInfinity => true
  | NegativeInfinity | NaN => false
  end.
End Number.

(** ** Tokens, venues and the SDK interface *)

(** [new Token(ChainId.MATIC, address, 18)] *)
Record Token : Type := mkToken { address : string; decimals : Z }.

Definition Token_eqb (a b : Token) : bool :=
  String.eqb (address a) (address b) && (decimals a =? decimals b).

(** The two venues, in the order the evaluator lists them. *)
Inductive Venue : Type := Uniswap | SushiSwap.

(** What [executionPrice.raw] holds: an [ethers] [BigNumber], as the
    docstring of [calculateProfit] has it and as the scripts use it
    ([raw.sub(gasCost)]), or a fraction object of the SDK, which has no
    method [sub] and converts to no number. *)
Inductive RawValue : Type :=
| BigNumberRaw (a : Z)
| FractionRaw (numerator denominator : Z).

(** What the scripts use of [@uniswap/sdk] and [@sushiswap/sdk]; the
    objects of the two packages are kept in the same types, and every
    operation that can throw returns a [Result].
    - [token0], [token1]: the two tokens of a fetched [Pair];
    - [swapExactInput v p tokenIn amountIn]: what
      [new Trade(new Route([p], tokenIn), new TokenAmount(tokenIn, amountIn),
      TradeType.EXACT_INPUT)] computes with the classes of the package of
      venue [v], the raw output amount and the execution price, or the
      exception the constructors throw;
    - [reparseFixed tok amount]: the raw amount of
      [new TokenAmount(tok, x.toFixed())] for a token amount [x] of raw
      value [amount], or the exception of the constructor;
    - [raw]: what [executionPrice.raw] holds;
    - [lessThan p q]: [p.lessThan(q)], the answer of the package of [p]
      given the price [q], or the exception it throws. *)
Class Sdk : Type := {
  Pair : Type;
  Price : Type;
  token0 : Pair -> Token;
  token1 : Pair -> Token;
  swapExactInput : Venue -> Pair -> Token -> Z -> Result (Z * Price);
  reparseFixed : Token -> Z -> Result Z;
  raw : Price -> RawValue;
  lessThan : Price -> Price -> Result bool
}.

Section Trades.
Context {sdk : Sdk}.

(** [new TokenAmount(token, raw)] *)
Record TokenAmount : Type := mkTokenAmount { token : Token; amount : Z }.

(** The fields of an SDK [Trade] the scripts read; a route of several
    pairs is a multi-hop trade. *)
Record Trade : Type := mkTrade {
  venue : Venue;
  route : list Pair;            (* route.pairs *)
  inputAmount : TokenAmount;
  outputAmount : TokenAmount;
  executionPrice : Price
}.

(** The output token of a one-pair route entered with [tokenIn]. *)
Definition routeOutput (p : Pair) (tokenIn : Token) : Token :=
  if Token_eqb tokenIn (token0 p) then token1 p else token0 p.

(** [new Trade(new Route([p], tokenIn), new TokenAmount(tokenIn, amountIn),
    TradeType.EXACT_INPUT)] *)
Definition newTrade (v : Venue) (p : Pair) (tokenIn : Token) (amountIn : Z)
  : Result Trade :=
  match swapExactInput v p tokenIn amountIn with
  | Ok (out, price) =>
      Ok {| venue := v; route := [p];
            inputAmount := mkTokenAmount tokenIn amountIn;
            outputAmount := mkTokenAmount (routeOutput p tokenIn) out;
            executionPrice := price |}
  | Throw m => Throw m
  end.

(** [Array.prototype.reduce] without an initial value: the accumulator
    starts as the first element; an empty array throws, and so does the
    whole reduction when the callback throws. *)
Fixpoint reduceFrom {A} (f : A -> A -> Result A) (acc : A) (l : list A)
  : Result A :=
  match l with
  | [] => Ok acc
  | x :: r => let* acc' := f acc x in reduceFrom f acc' r
  end.

Definition reduce {A} (f : A -> A -> Result A) (l : list A) : Result A :=
  match l with
  | [] => Throw "Reduce of empty array with no initial value"
  | x :: r => reduceFrom f x r
  end.

(** The callback of lines 231-236 of [index.js] (250-255 of [part_001]):
    the receiver of [lessThan] is the price of [current]. *)
Definition pickBetter (best current : Trade) : Result Trade :=
  let* cheaper := lessThan (executionPrice current) (executionPrice best) in
  Ok (if cheaper : bool then current else best).
End Trades.

(** [ethers.parseUnits('1', decimals)] *)
Definition parseUnits_one (decimals : Z) : Z := 10 ^ decimals.

(** JavaScript truthiness of an address that is a string, [null] or
    [undefined]. *)
Definition truthy (a : option string) : bool :=
  match a with
  | Some s => negb (String.eqb s "")
  | None => false
  end.

(** An entry of the token list: [{id, symbol, address}]; [addr] is the
    [address] property, [None] when it is [null] or [undefined]. *)
Record Listing : Type := mkListing {
  id : string;
  symbol : string;
  addr : option string
}.

(** The string of an address that passed the truthiness test. *)
Definition theString (a : option string) : string :=
  match a with Some s => s | None => "" end.

(** The candidate pairs in the order of the nested loops
    [for i ... for j = i + 1 ...]. *)
Fixpoint candidatePairs {A} (l : list A) : list (A * A) :=
  match l with
  | [] => []
  | x :: r => map (pair x) r ++ candidatePairs r
  end.

(** The candidate triples in the order of the three nested loops. *)
Fixpoint candidateTriples {A} (l : list A) : list (A * A * A) :=
  match l with
  | [] => []
  | x :: r => map (fun c => (x, fst c, snd c)) (candidatePairs r)
              ++ candidateTriples r
  end.

(** ** Computations with state and exceptions *)


(** A computation that reads and writes a state [S] and may throw; the
    writes made before a throw stay. *)
Definition M (S A : Type) : Type := S -> Result A * S.

Definition ret {S A} (a : A) : M S A := fun s => (Ok a, s).

Definition bind {S A B} (m : M S A) (k : A -> M S B) : M S B :=
  fun s =>
    match m s with
    | (Ok a, s') => k a s'
    | (Throw e, s') => (Throw e, s')
    end.

Definition lift {S A} (r : Result A) : M S A := fun s => (r, s).

(** [try { m } catch (error) { handler(error.message) }] *)
Definition tryCatch {S A} (m : M S A) (handler : string -> M S A) : M S A :=
  fun s =>
    match m s with
    | (Ok a, s') => (Ok a, s')
    | (Throw e, s') => handler e s'
    end.

Notation "x <- m ;; k" := (bind m (fun x => k))
  (at level 61, m at next level, right associativity).
Notation "m ;;; k" := (bind m (fun _ => k))
  (at level 61, right associativity).

Fixpoint forEach {S A} (f : A -> M S unit) (l : list A) : M S unit :=
  match l with
  | [] => ret tt
  | x :: r => f x ;;; forEach f r
  end.

(** The outcome of the decision: the trade handed to [executeTrade], or
    none. *)
Inductive Decision (T : Type) : Type :=
| Execute (trade : T)
| Skip.
Arguments Execute {T} trade.
Arguments Skip {T}.

(** [n > r] for an integer-valued number [n] and a number [r]. *)
Definition Number_gt (n : Z) (r : Q) : bool := negb (Qle_bool (inject_Z n) r).

(** * [src/index.js] *)

Module Index.
Section WithSdk.
Context {sdk : Sdk}.

(** An element of the CoinGecko answer: [id], [symbol] and the value of
    [token.platforms?.['polygon-pos']]. *)
Record ApiToken : Type := mkApiToken {
  api_id : string;
  api_symbol : string;
  polygon_pos : option string
}.

(** What the outside world answers during one pass. *)
Record World : Type := mkWorld {
  (* axios.get(...).data, or the exception of the request *)
  coingecko : Result (list ApiToken);
  (* Fetcher.fetchPairData(new Token(..), new Token(..), provider) *)
  Fetcher_fetchPairData : string -> string -> Result (option Pair);
  (* SushiFetcher.fetchPairData(new SushiToken(..), new SushiToken(..), provider) *)
  SushiFetcher_fetchPairData : string -> string -> Result (option Pair);
  (* the n-th call of provider.getGasPrice() in the pass *)
  provider_getGasPrice : nat -> Result Z;
  (* Math.random() *)
  Math_random : Q;
  (* lines 103-119 of executeTrade: the encoded swap, or an exception *)
  encodeSwap : Trade -> Result string;
  (* lines 124-132: wallet.sendTransaction(swapTransaction),
     txResponse.wait() and the symbols of the path; the hash of the
     confirmed transaction, or the exception of the first that throws *)
  wallet_sendTransaction : Trade -> Z -> Result string;
  (* when that exception comes after wallet.sendTransaction has returned:
     the hash of the response, logged at line 125 *)
  txResponse_hash : Trade -> Z -> option string
}.

(** What a pass writes to the console and to the Telegram chat. *)
Inductive Event : Type :=
| TokenFetchError (msg : string)                (* line 66 *)
| InvalidTokenAddress (a1 a2 : option string)   (* line 194 *)
| PairFetchError (msg : string)                 (* line 164 *)
| TradeSubmitted (t : Trade) (hash : string)    (* line 125 *)
| TradeConfirmed (hash : string) (profit : Z)   (* lines 134-142 *)
| TradeError (msg : string)                     (* lines 144-145 *)
| NoProfitableTrade                             (* line 260 *)
| PassError (msg : string).                     (* lines 263-264 *)

(** The variables of a pass: [bestTrade], [bestProfit], the number of gas
    price requests made so far, and the events in order of emission. *)
Record PassState : Type := mkPassState {
  bestTrade : option Trade;
  bestProfit : Z;
  gasCalls : nat;
  events : list Event
}.

Definition emit (e : Event) : M PassState unit :=
  fun s => (Ok tt, {| bestTrade := bestTrade s; bestProfit := bestProfit s;
                      gasCalls := gasCalls s; events := events s ++ [e] |}).

(** Lines 41-69. *)
Definition fetchTopTokens (w : World) : M PassState (list Listing) :=
  tryCatch
    (data <- lift (coingecko w) ;;
     ret (filter (fun t => truthy (addr t))
            (map (fun t =>
                    {| id := api_id t; symbol := api_symbol t;
                       addr := if truthy (polygon_pos t)
                               then polygon_pos t else None |})
                 data)))
    (fun msg => emit (TokenFetchError msg) ;;; ret []).

(** [await provider.getGasPrice()] *)
Definition getGasPrice (w : World) : M PassState Z :=
  fun s => (provider_getGasPrice w (gasCalls s),
            {| bestTrade := bestTrade s; bestProfit := bestProfit s;
               gasCalls := S (gasCalls s); events := events s |}).

(** Lines 77-82. *)
Definition estimateGasCost (w : World) (trade : Trade) : M PassState Z :=
  gasPrice <- getGasPrice w ;;
  adjustedGasPrice <- lift (BigNumber.div (BigNumber.mul gasPrice 110) 100) ;;
  let gasEstimate := 200000 in
  ret (BigNumber.mul adjustedGasPrice gasEstimate).

(** Lines 91-94: [executionPrice.raw.sub(gasCost)].  A [raw] that is not
    a [BigNumber] has no method [sub], and the call throws. *)
Definition calculateProfit (executionPrice : Price) (gasCost : Z) : Result Z :=
  match raw executionPrice with
  | BigNumberRaw amount =>
      let profit := BigNumber.sub amount gasCost in
      Ok profit
  | FractionRaw _ _ => Throw "executionPrice.raw.sub is not a function"
  end.

(** Lines 124-132: the transaction is sent and its hash logged; then the
    receipt is awaited and the symbols of the path are looked up, either
    of which can throw with the hash already logged. *)
Definition sendAndConfirm (w : World) (trade : Trade) (gasPrice : Z)
  : M PassState string :=
  match wallet_sendTransaction w trade gasPrice with
  | Ok hash => emit (TradeSubmitted trade hash) ;;; ret hash
  | Throw msg =>
      match txResponse_hash w trade gasPrice with
      | Some hash => emit (TradeSubmitted trade hash) ;;; lift (Throw msg)
      | None => lift (Throw msg)
      end
  end.

(** Lines 101-147: everything happens inside one [try]; nothing is
    thrown to the caller. *)
Definition executeTrade (w : World) (trade : Trade) : M PassState unit :=
  tryCatch
    (data <- lift (encodeSwap w trade) ;;
     gasPrice <- getGasPrice w ;;
     hash <- sendAndConfirm w trade gasPrice ;;
     gasCost <- estimateGasCost w trade ;;
     profit <- lift (calculateProfit (executionPrice trade) gasCost) ;;
     emit (TradeConfirmed hash profit))
    (fun msg => emit (TradeError msg)).

(** Lines 156-167: a failed fetch is logged and becomes [null]. *)
Definition fetchPairs (w : World) (token1Address token2Address : string)
  : M PassState (option Pair) :=
  tryCatch
    (lift (Fetcher_fetchPairData w token1Address token2Address))
    (fun msg => emit (PairFetchError msg) ;;; ret None).

(** Lines 169-173. *)
Definition stochasticDecision (w : World) (trade : Trade)
    (profit threshold : Z) : M PassState bool :=
  let probability := Math_random w in
  quotient <- lift (BigNumber.div profit threshold) ;;
  profitProbability <- lift (BigNumber.toNumber quotient) ;;
  ret (Number_gt profitProbability probability).

Definition setBest (profit : Z) (trade : Trade) : M PassState unit :=
  fun s => (Ok tt, {| bestTrade := Some trade; bestProfit := profit;
                      gasCalls := gasCalls s; events := events s |}).

(** Lines 244-247: the retention test of one candidate. *)
Definition retain (minimumProfitThreshold potentialProfit : Z)
    (bestCurrentTrade : Trade) : M PassState unit :=
  if BigNumber.gt potentialProfit minimumProfitThreshold
  then setBest potentialProfit bestCurrentTrade
  else ret tt.

(** Lines 231-236. *)
Definition compare (uniswapTrade sushiTrade : Trade) : Result Trade :=
  reduce pickBetter [uniswapTrade; sushiTrade].

(** Lines 190-247: the body of the inner loop; [ret tt] where the source
    says [continue]. *)
Definition evaluateCandidate (w : World) (minimumProfitThreshold : Z)
    (c : Listing * Listing) : M PassState unit :=
  let token1Address := addr (fst c) in
  let token2Address := addr (snd c) in
  if negb (truthy token1Address) || negb (truthy token2Address)
  then emit (InvalidTokenAddress token1Address token2Address)
  else
    let a1 := theString token1Address in
    let a2 := theString token2Address in
    uniswapPair <- fetchPairs w a1 a2 ;;
    match uniswapPair with
    | None => ret tt
    | Some uniswapPair =>
        uniswapTrade <-
          lift (newTrade Uniswap uniswapPair (token0 uniswapPair)
                  (parseUnits_one (decimals (token0 uniswapPair)))) ;;
        sushiPair <- lift (SushiFetcher_fetchPairData w a1 a2) ;;
        match sushiPair with
        | None => ret tt
        | Some sushiPair =>
            sushiTrade <-
              lift (newTrade SushiSwap sushiPair (token0 sushiPair)
                      (parseUnits_one (decimals (token0 sushiPair)))) ;;
            bestCurrentTrade <- lift (compare uniswapTrade sushiTrade) ;;
            gasCost <- estimateGasCost w bestCurrentTrade ;;
            potentialProfit <-
              lift (calculateProfit (executionPrice bestCurrentTrade) gasCost) ;;
            retain minimumProfitThreshold potentialProfit bestCurrentTrade
        end
    end.

(** [ethers.parseUnits('0.001', 'ether')], line 251. *)
Definition profitThreshold : Z := 10 ^ 15.

(** The condition of lines 253-257:
    [bestTrade && (bestProfit.gt(0n) || stochasticDecision(...))]. *)
Definition decision (w : World) : M PassState (Decision Trade) :=
  fun s =>
    match bestTrade s with
    | Some trade =>
        if BigNumber.gt (bestProfit s) 0
        then (Ok (Execute trade), s)
        else
          (go <- stochasticDecision w trade (bestProfit s) profitThreshold ;;
           ret (if go : bool then Execute trade else Skip)) s
    | None => (Ok Skip, s)
    end.

(** Lines 253-261. *)
Definition decide (w : World) : M PassState unit :=
  d <- decision w ;;
  match d with
  | Execute trade => executeTrade w trade
  | Skip => emit NoProfitableTrade
  end.

Definition initialState : PassState :=
  {| bestTrade := None; bestProfit := 0; gasCalls := 0%nat; events := [] |}.

(** The two loops of lines 188-249. *)
Definition scan (w : World) (minimumProfitThreshold : Z)
    (tokenList : list Listing) : M PassState unit :=
  forEach (evaluateCandidate w minimumProfitThreshold)
          (candidatePairs tokenList).

(** Lines 178-266.  [minimumProfitThreshold] is the parsed value of the
    configured [MINIMUM_PROFIT_THRESHOLD] (a decimal number of ether;
    [10 ^ 15] when unset). *)
Definition evaluatePairsAcrossDEXs (w : World) (minimumProfitThreshold : Z)
  : PassState :=
  snd ((tokenList <- fetchTopTokens w ;;
        tryCatch
          (scan w minimumProfitThreshold tokenList ;;; decide w)
          (fun msg => emit (PassError msg)))
       initialState).

(** What a pass reports of itself. *)
Definition isSubmission (e : Event) : bool :=
  match e with TradeSubmitted _ _ => true | _ => false end.

Definition isPassError (e : Event) : bool :=
  match e with PassError _ => true | _ => false end.

Definition opportunityFound (s : PassState) : bool :=
  match bestTrade s with Some _ => true | None => false end.

Definition executed (s : PassState) : bool := existsb isSubmission (events s).

Definition failed (s : PassState) : bool := existsb isPassError (events s).

(** For the statement of what the retention test keeps: the last of a run
    of candidates (profit, trade) whose profit exceeds the threshold. *)
Fixpoint lastAbove (threshold : Z) (candidates : list (Z * Trade))
    (sofar : option (Z * Trade)) : option (Z * Trade) :=
  match candidates with
  | [] => sofar
  | c :: rest =>
      lastAbove threshold rest
        (if BigNumber.gt (fst c) threshold then Some c else sofar)
  end.

Definition withBest (best : option (Z * Trade)) (s : PassState) : PassState :=
  match best with
  | Some (profit, trade) =>
      {| bestTrade := Some trade; bestProfit := profit;
         gasCalls := gasCalls s; events := events s |}
  | None => s
  end.
End WithSdk.
End Index.

(** * [src/unnamed/part_001]

    Of this script: [estimateGasCost], [calculateProfit], [fetchPairs],
    [evaluatePairsAcrossDEXs] and [evaluateTriangularArbitrage].  The
    profit of a pair is a JavaScript number ([Number.t]) where [index.js]
    has a [BigNumber]; the threshold is the rational a double denotes
    ([Q]). *)

Module Part001.
Section WithSdk.
Context {sdk : Sdk}.

(** The double [0.01]. *)
Definition double_0_01 : Q := Qmake 5764607523034235 (2 ^ 59).

(** Lines 34-35: [parseInt(process.env.MINIMUM_PROFIT_THRESHOLD) || 0.01];
    [parsed] is the result of [parseInt], [None] for [NaN]. *)
Definition MINIMUM_PROFIT_THRESHOLD (parsed : option Z) : Q :=
  match parsed with
  | Some n => if n =? 0 then double_0_01 else inject_Z n
  | None => double_0_01
  end.

(** An element of the CoinGecko answer. *)
Record ApiToken : Type := mkApiToken {
  api_id : string;
  api_symbol : string;
  contract_address : option string
}.

Record World : Type := mkWorld {
  coingecko : Result (list ApiToken);
  Fetcher_fetchPairData : string -> string -> Result (option Pair);
  SushiFetcher_fetchPairData : string -> string -> Result (option Pair);
  provider_getGasPrice : nat -> Result Z;
  (* lines 84-87: parseFloat(await getTokenBalance(address)) >= 0.1 *)
  hasSufficientBalance : string -> bool;
  (* lines 204-206: Math.min(token1Balance, token2Balance) * 0.1 *)
  amountToTrade : string -> string -> Q;
  (* ethers.parseUnits(amountToTrade.toString(), decimals), for the amount
     of lines 204-206 of the two addresses *)
  parsedPairAmountToTrade : string -> string -> Z -> Result Z;
  (* ethers.parseUnits(amountToTrade.toString(), decimals), for the amount
     of lines 326-336 of the triple of addresses *)
  parsedAmountToTrade : string -> string -> string -> Z -> Result Z
}.

Inductive Event : Type :=
| TokenFetchError (msg : string)                        (* line 61 *)
| PairFetchError (msg : string)                         (* line 162 *)
| InsufficientBalancePair (a1 a2 : string)              (* lines 187-198 *)
| NoProfitableTrade                                     (* lines 275-276 *)
| PassError (msg : string)                              (* lines 279-283 *)
| InsufficientBalance (a1 a2 a3 : string)               (* lines 309-321 *)
| TriangularOpportunity (a1 a2 a3 : string) (profit : Z) (* lines 373-386 *)
| TriangularError (msg : string).                       (* lines 392-396 *)

Record PassState : Type := mkPassState {
  gasCalls : nat;
  events : list Event
}.

Definition emit (e : Event) : M PassState unit :=
  fun s => (Ok tt, {| gasCalls := gasCalls s; events := events s ++ [e] |}).

(** Lines 38-64. *)
Definition fetchTopTokens (w : World) : M PassState (list Listing) :=
  tryCatch
    (data <- lift (coingecko w) ;;
     ret (map (fun t => {| id := api_id t; symbol := api_symbol t;
                           addr := contract_address t |}) data))
    (fun msg => emit (TokenFetchError msg) ;;; ret []).

Definition getGasPrice (w : World) : M PassState Z :=
  fun s => (provider_getGasPrice w (gasCalls s),
            {| gasCalls := S (gasCalls s); events := events s |}).

(** Lines 90-95. *)
Definition estimateGasCost (w : World) (trade : Trade) : M PassState Z :=
  gasPrice <- getGasPrice w ;;
  adjustedGasPrice <- lift (BigNumber.div (BigNumber.mul gasPrice 110) 100) ;;
  let gasEstimate := 250000 in
  ret (BigNumber.mul adjustedGasPrice gasEstimate).

(** The number an operand of [-] is converted to: a [BigNumber] by way of
    its decimal string, an object without a string form of its own by way
    of ["[object Object]"]. *)
Definition toNumber (value : RawValue) : Number.t :=
  match value with
  | BigNumberRaw a => Number.ofInteger a
  | FractionRaw _ _ => Number.NaN
  end.

(** Lines 98-102: [amountOut - gasCost.toString()]. *)
Definition calculateProfit (executionPrice : Price) (gasCost : Z)
    (amountIn : Q) : Number.t :=
  let amountOut := raw executionPrice in
  let profit := Number.sub (toNumber amountOut) (Number.ofInteger gasCost) in
  profit.

(** Lines 154-165. *)
Definition fetchPairs (w : World) (token1Address token2Address : string)
  : M PassState (option Pair) :=
  tryCatch
    (lift (Fetcher_fetchPairData w token1Address token2Address))
    (fun msg => emit (PairFetchError msg) ;;; ret None).

(** The variables [bestTrade] and [bestProfit] of lines 171-172. *)
Record Best : Type := mkBest {
  bestTrade : option Trade;
  bestProfit : Number.t
}.

Definition initialBest : Best :=
  {| bestTrade := None; bestProfit := Number.Finite 0 |}.

(** Lines 175-269: the body of the inner loop, from the retained trade and
    profit it finds to those it leaves. *)
Definition evaluateCandidate (w : World) (c : Listing * Listing) (best : Best)
  : M PassState Best :=
  let '(l1, l2) := c in
  let token1Address := addr l1 in
  let token2Address := addr l2 in
  if negb (truthy token1Address) || negb (truthy token2Address)
  then ret best
  else
    let a1 := theString token1Address in
    let a2 := theString token2Address in
    if negb (hasSufficientBalance w a1) && negb (hasSufficientBalance w a2)
    then emit (InsufficientBalancePair a1 a2) ;;; ret best
    else
      uniswapPair <- fetchPairs w a1 a2 ;;
      match uniswapPair with
      | None => ret best
      | Some uniswapPair =>
          uniswapAmount <- lift (parsedPairAmountToTrade w a1 a2
                                   (decimals (token0 uniswapPair))) ;;
          uniswapTrade <- lift (newTrade Uniswap uniswapPair
                                  (token0 uniswapPair) uniswapAmount) ;;
          sushiPair <- lift (SushiFetcher_fetchPairData w a1 a2) ;;
          match sushiPair with
          | None => ret best
          | Some sushiPair =>
              sushiAmount <- lift (parsedPairAmountToTrade w a1 a2
                                     (decimals (token0 sushiPair))) ;;
              sushiTrade <- lift (newTrade SushiSwap sushiPair
                                    (token0 sushiPair) sushiAmount) ;;
              bestCurrentTrade <-
                lift (reduce pickBetter [uniswapTrade; sushiTrade]) ;;
              gasCost <- estimateGasCost w bestCurrentTrade ;;
              let potentialProfit :=
                calculateProfit (executionPrice bestCurrentTrade) gasCost
                  (amountToTrade w a1 a2) in
              if Number.gt potentialProfit 0
              then ret {| bestTrade := Some bestCurrentTrade;
                          bestProfit := potentialProfit |}
              else ret best
          end
      end.

(** The two loops of lines 175-269. *)
Fixpoint scan (w : World) (candidates : list (Listing * Listing)) (best : Best)
  : M PassState Best :=
  match candidates with
  | [] => ret best
  | c :: rest => best' <- evaluateCandidate w c best ;; scan w rest best'
  end.

(** The condition of line 272:
    [bestTrade && bestProfit >= MINIMUM_PROFIT_THRESHOLD]. *)
Definition decision (best : Best) (threshold : Q) : Decision Trade :=
  match bestTrade best with
  | Some trade =>
      if Number.ge (bestProfit best) threshold then Execute trade else Skip
  | None => Skip
  end.

(** Lines 272-277.  [amountToTrade] is a [const] of the body of the inner
    loop (line 206): line 273 reads it outside that block, which throws a
    [ReferenceError] before [executeTrade] is entered. *)
Definition conclude (best : Best) (threshold : Q) : M PassState unit :=
  match decision best threshold with
  | Execute trade => lift (Throw "amountToTrade is not defined")
  | Skip => emit NoProfitableTrade
  end.

Definition initialState : PassState := {| gasCalls := 0%nat; events := [] |}.

(** Lines 168-285. *)
Definition evaluatePairsAcrossDEXs (w : World) (threshold : Q) : PassState :=
  snd ((tokenList <- fetchTopTokens w ;;
        tryCatch
          (best <- scan w (candidatePairs tokenList) initialBest ;;
           conclude best threshold)
          (fun msg => emit (PassError msg)))
       initialState).

(** Line 372: [profit.gt(0) || profit.gt(MINIMUM_PROFIT_THRESHOLD)] on the
    [BigNumber] [profit]; the second comparison is made only when the
    first is false, and converts the threshold first. *)
Definition reportTest (profit : Z) (threshold : Q) : Result bool :=
  if BigNumber.gt profit 0 then Ok true
  else BigNumber.gtNumber profit threshold.

(** Lines 345-367: the three trades, each entered with [token0] of its
    pair, the second and third fed with the output amount of the one
    before. *)
Definition triangularTrades (pair1 pair2 pair3 : Pair) (amountIn : Z)
  : Result (Trade * Trade * Trade) :=
  let* trade1 := newTrade Uniswap pair1 (token0 pair1) amountIn in
  let* in2 := reparseFixed (token (outputAmount trade1))
                           (amount (outputAmount trade1)) in
  let* trade2 := newTrade Uniswap pair2 (token0 pair2) in2 in
  let* in3 := reparseFixed (token (outputAmount trade2))
                           (amount (outputAmount trade2)) in
  let* trade3 := newTrade Uniswap pair3 (token0 pair3) in3 in
  Ok (trade1, trade2, trade3).

(** Lines 345-371. *)
Definition triangularProfit (pair1 pair2 pair3 : Pair) (amountIn : Z)
  : Result Z :=
  let* trades := triangularTrades pair1 pair2 pair3 amountIn in
  let '(trade1, trade2, trade3) := trades in
  Ok (amount (outputAmount trade3) - amountIn).

(** Lines 295-387: the body of the innermost loop. *)
Definition evaluateTriple (w : World) (threshold : Q)
    (c : Listing * Listing * Listing) : M PassState unit :=
  let '(l1, l2, l3) := c in
  let token1Address := addr l1 in
  let token2Address := addr l2 in
  let token3Address := addr l3 in
  if negb (truthy token1Address) || negb (truthy token2Address)
     || negb (truthy token3Address)
  then ret tt
  else
    let a1 := theString token1Address in
    let a2 := theString token2Address in
    let a3 := theString token3Address in
    if negb (hasSufficientBalance w a1) && negb (hasSufficientBalance w a2)
       && negb (hasSufficientBalance w a3)
    then emit (InsufficientBalance a1 a2 a3)
    else
      pair1 <- fetchPairs w a1 a2 ;;
      pair2 <- fetchPairs w a2 a3 ;;
      pair3 <- fetchPairs w a3 a1 ;;
      match pair1, pair2, pair3 with
      | Some pair1, Some pair2, Some pair3 =>
          amountIn <- lift (parsedAmountToTrade w a1 a2 a3
                              (decimals (token0 pair1))) ;;
          profit <- lift (triangularProfit pair1 pair2 pair3 amountIn) ;;
          report <- lift (reportTest profit threshold) ;;
          if report : bool
          then emit (TriangularOpportunity a1 a2 a3 profit)
          else ret tt
      | _, _, _ => ret tt
      end.

(** Lines 288-398. *)
Definition evaluateTriangularArbitrage (w : World) (threshold : Q)
  : PassState :=
  snd ((tokenList <- fetchTopTokens w ;;
        tryCatch
          (forEach (evaluateTriple w threshold) (candidateTriples tokenList))
          (fun msg => emit (TriangularError msg)))
       initialState).

(** The profit of the cycle in the words of the specification: the hops
    [A -> B], [B -> C], [C -> A] over the pairs of [(A, B)], [(B, C)] and
    [(C, A)], each output amount the next input amount, less the amount
    put in. *)
Definition cycleProfit (A B C : Token) (pairAB pairBC pairCA : Pair)
    (amountIn : Z) : Result Z :=
  let* hop1 := swapExactInput Uniswap pairAB A amountIn in
  let* hop2 := swapExactInput Uniswap pairBC B (fst hop1) in
  let* hop3 := swapExactInput Uniswap pairCA C (fst hop2) in
  Ok (fst hop3 - amountIn).
End WithSdk.
End Part001.

(** * A concrete SDK for examples

    Pairs quote a fixed rate: one unit of [rp_token0] buys [rp_num / rp_den]
    units of [rp_token1].  A price is the fraction output over input.

    In [Demo] the calls of the scripts do what the scripts expect: the
    prices of the two venues compare by cross multiplication, [raw] is a
    [BigNumber], the amount out (line 99 of [part_001]: "this should be
    the estimated amount out"), and an amount passes unchanged through
    [toFixed()] into the next [TokenAmount], as lines 358 and 365 intend.

    In [Imported] they do what the packages [@uniswap/sdk] and
    [@sushiswap/sdk] do: a price compares with a price of its own package
    only, the argument of another package is no fraction and no number,
    and its conversion throws; [raw] is a fraction; and the constructor of
    [TokenAmount] refuses the decimal string of [toFixed()]. *)

Module Demo.
Record RatePair : Type := mkRatePair {
  rp_token0 : Token;
  rp_token1 : Token;
  rp_num : Z;
  rp_den : Z
}.

Definition Fraction : Type := (Z * Z)%type.

Definition swap (v : Venue) (p : RatePair) (tokenIn : Token) (amountIn : Z)
  : Result (Z * Fraction) :=
  if (amountIn <=? 0) || (rp_num p <=? 0) || (rp_den p <=? 0)
  then Throw "InsufficientInputAmountError"
  else if Token_eqb tokenIn (rp_token0 p)
  then let out := Z.quot (amountIn * rp_num p) (rp_den p) in
       Ok (out, (out, amountIn))
  else if Token_eqb tokenIn (rp_token1 p)
  then let out := Z.quot (amountIn * rp_den p) (rp_num p) in
       Ok (out, (out, amountIn))
  else Throw "TOKEN".

Definition fraction_lessThan (a b : Fraction) : bool :=
  fst a * snd b <? fst b * snd a.

#[export] Instance sdk : Sdk := {|
  Pair := RatePair;
  Price := Fraction;
  token0 := rp_token0;
  token1 := rp_token1;
  swapExactInput := swap;
  reparseFixed := fun _ x => Ok x;
  raw := fun price => BigNumberRaw (fst price);
  lessThan := fun p q => Ok (fraction_lessThan p q)
|}.
End Demo.

Module Imported.
(** A price remembers the package that made it. *)
Definition VenuePrice : Type := (Venue * Demo.Fraction)%type.

Definition sameVenue (v w : Venue) : bool :=
  match v, w with
  | Uniswap, Uniswap | SushiSwap, SushiSwap => true
  | _, _ => false
  end.

Definition swap (v : Venue) (p : Demo.RatePair) (tokenIn : Token)
    (amountIn : Z) : Result (Z * VenuePrice) :=
  let* quoted := Demo.swap v p tokenIn amountIn in
  Ok (fst quoted, (v, snd quoted)).

Definition priceLessThan (p q : VenuePrice) : Result bool :=
  if sameVenue (fst p) (fst q)
  then Ok (Demo.fraction_lessThan (snd p) (snd q))
  else Throw "Cannot convert [object Object] to a BigInt".

(** [new TokenAmount(tok, x.toFixed())]: the string of [toFixed()] has the
    decimals of the token, and with a decimal point in it it is no
    integer. *)
Definition tokenAmountOfFixed (tok : Token) (amount : Z) : Result Z :=
  if decimals tok =? 0 then Ok amount
  else Throw "Cannot convert a decimal string to a BigInt".

Definition sdk : Sdk := {|
  Pair := Demo.RatePair;
  Price := VenuePrice;
  token0 := Demo.rp_token0;
  token1 := Demo.rp_token1;
  swapExactInput := swap;
  reparseFixed := tokenAmountOfFixed;
  raw := fun price => FractionRaw (fst (snd price)) (snd (snd price));
  lessThan := priceLessThan
|}.
End Imported.

(** ** Scenarios

    Three tokens with 18 decimals whose addresses sort as A, B, C, and the
    answers of the outside world in a few passes. *)

Module Scenario.
Import Demo.

Definition addressA : string := "0x1a".
Definition addressB : string := "0x2b".
Definition addressC : string := "0x3c".

Definition tokenA : Token := mkToken addressA 18.
Definition tokenB : Token := mkToken addressB 18.
Definition tokenC : Token := mkToken addressC 18.

(** A table of fetched pairs by the two addresses asked for. *)
Definition PairTable : Type := list (string * string * Result (option RatePair)).

Fixpoint fetchFrom (table : PairTable) (missing : Result (option RatePair))
    (a1 a2 : string) : Result (option RatePair) :=
  match table with
  | [] => missing
  | (b1, b2, answer) :: rest =>
      if String.eqb a1 b1 && String.eqb a2 b2 then answer
      else fetchFrom rest missing a1 a2
  end.

Definition found (t0 t1 : Token) (num den : Z) : Result (option RatePair) :=
  Ok (Some (mkRatePair t0 t1 num den)).

Definition listed : list Index.ApiToken :=
  [ Index.mkApiToken "token-a" "a" (Some addressA);
    Index.mkApiToken "token-b" "b" (Some addressB);
    Index.mkApiToken "token-c" "c" (Some addressC) ].

Definition world (tokens : list Index.ApiToken) (uniswap sushi : PairTable)
  : Index.World :=
  {| Index.coingecko := Ok tokens;
     Index.Fetcher_fetchPairData := fetchFrom uniswap (Throw "no pair");
     Index.SushiFetcher_fetchPairData := fetchFrom sushi (Ok None);
     Index.provider_getGasPrice := fun _ => Ok 100;
     Index.Math_random := 1 # 2;
     Index.encodeSwap := fun _ => Ok "0xdata";
     Index.wallet_sendTransaction := fun _ _ => Ok "0xhash";
     Index.txResponse_hash := fun _ _ => None |}.

(** The gas cost of every estimate in these worlds: 110 * 200000. *)
Definition gasCost : Z := 22000000.

(** The default threshold, 0.001 ether. *)
Definition defaultThreshold : Z := 10 ^ 15.

(** Two candidates above the threshold, the more profitable one first:
    (A, B) quotes 5 and 6 B for one A, (A, C) quotes 2 and 3 C for one A;
    (B, C) has no Uniswap pair. *)
Definition twoOpportunities : Index.World :=
  world listed
    [ (addressA, addressB, found tokenA tokenB 5 1);
      (addressA, addressC, found tokenA tokenC 2 1) ]
    [ (addressA, addressB, found tokenA tokenB 6 1);
      (addressA, addressC, found tokenA tokenC 3 1) ].

Definition listingA : Listing := mkListing "token-a" "a" (Some addressA).
Definition listingB : Listing := mkListing "token-b" "b" (Some addressB).
Definition listingC : Listing := mkListing "token-c" "c" (Some addressC).

(** The SushiSwap fetch of the first candidate throws; the second
    candidate is quoted by both venues. *)
Definition sushiThrows : Index.World :=
  world listed
    [ (addressA, addressB, found tokenA tokenB 5 1);
      (addressA, addressC, found tokenA tokenC 2 1) ]
    [ (addressA, addressB, Throw "call revert exception");
      (addressA, addressC, found tokenA tokenC 3 1) ].

(** One candidate: Uniswap quotes 1 B for one A, SushiSwap 2 B. *)
Definition oneCandidate : Index.World :=
  world [ Index.mkApiToken "token-a" "a" (Some addressA);
          Index.mkApiToken "token-b" "b" (Some addressB) ]
    [ (addressA, addressB, found tokenA tokenB 1 1) ]
    [ (addressA, addressB, found tokenA tokenB 2 1) ].

(** The threshold 0.999999999978 ether: the profit of that candidate. *)
Definition exactThreshold : Z := 10 ^ 18 - gasCost.

(** CoinGecko lists one token, without a Polygon address. *)
Definition nothingListed : Index.World :=
  world [ Index.mkApiToken "token-x" "x" None ] [] [].

(** The triangle of [part_001]: A and B trade one to one, B and C trade
    one to one, and one A buys two C.  Each pair holds its tokens in
    address order, so the pair fetched for (C, A) has [token0 = A]. *)
Definition pairAB : RatePair := mkRatePair tokenA tokenB 1 1.
Definition pairBC : RatePair := mkRatePair tokenB tokenC 1 1.
Definition pairCA : RatePair := mkRatePair tokenA tokenC 2 1.

Definition triangle : Part001.World :=
  {| Part001.coingecko :=
       Ok [ Part001.mkApiToken "token-a" "a" (Some addressA);
            Part001.mkApiToken "token-b" "b" (Some addressB);
            Part001.mkApiToken "token-c" "c" (Some addressC) ];
     Part001.Fetcher_fetchPairData :=
       fetchFrom [ (addressA, addressB, Ok (Some pairAB));
                   (addressB, addressC, Ok (Some pairBC));
                   (addressC, addressA, Ok (Some pairCA)) ]
                 (Throw "no pair");
     Part001.SushiFetcher_fetchPairData := fun _ _ => Ok None;
     Part001.provider_getGasPrice := fun _ => Ok 100;
     Part001.hasSufficientBalance := fun _ => true;
     Part001.amountToTrade := fun _ _ => 1%Q;
     Part001.parsedPairAmountToTrade := fun _ _ _ => Ok (10 ^ 18);
     Part001.parsedAmountToTrade := fun _ _ _ _ => Ok (10 ^ 18) |}.

(** Quotes for one A: 1 B on Uniswap, 2 B and again 1 B on SushiSwap. *)
Definition quote (v : Venue) (p : RatePair) (out : Z) : Trade :=
  {| venue := v; route := [p];
     inputAmount := mkTokenAmount tokenA (10 ^ 18);
     outputAmount := mkTokenAmount tokenB out;
     executionPrice := (out, 10 ^ 18) |}.

Definition uniswapQuote : Trade := quote Uniswap pairAB (10 ^ 18).
Definition sushiQuote : Trade :=
  quote SushiSwap (mkRatePair tokenA tokenB 2 1) (2 * 10 ^ 18).
Definition sushiQuoteTied : Trade := quote SushiSwap pairAB (10 ^ 18).
End Scenario.

(** ** What a pass leaves behind

    Readings of the event log and of the retained trade, for the
    statements about whole passes; and two values [executeTrade] computes
    for the swap (lines 106 and 113). *)

Module Report.
Section WithSdk.
Context {sdk : Sdk}.

(** The events of the fetches that fail without ending the pass. *)
Definition isFetchError (e : Index.Event) : bool :=
  match e with
  | Index.TokenFetchError _ | Index.PairFetchError _ => true
  | _ => false
  end.

Definition isInvalidAddress (e : Index.Event) : bool :=
  match e with Index.InvalidTokenAddress _ _ => true | _ => false end.

(** The events [executeTrade] emits. *)
Definition isAttempt (e : Index.Event) : bool :=
  match e with
  | Index.TradeSubmitted _ _ | Index.TradeConfirmed _ _ | Index.TradeError _ =>
      true
  | _ => false
  end.

Definition isNoTrade (e : Index.Event) : bool :=
  match e with Index.NoProfitableTrade => true | _ => false end.

(** The number of transactions the wallet accepted. *)
Definition submissions (events : list Index.Event) : nat :=
  List.length (filter Index.isSubmission events).

Definition skipped (s : Index.PassState) : bool :=
  existsb isNoTrade (Index.events s).

Definition attempted (s : Index.PassState) : bool :=
  existsb isAttempt (Index.events s).

(** Line 113: the amount of the swap,
    [ethers.parseUnits('1', trade.inputAmount.token.decimals)]. *)
Definition submittedAmount (trade : Trade) : Z :=
  parseUnits_one (decimals (token (inputAmount trade))).

(** Line 106 (110 in [part_001]):
    [Math.floor(Date.now() / 1000) + 60 * 20], with [Date.now()] in
    milliseconds. *)
Definition deadline (now : Z) : Z := now / 1000 + 60 * 20.

(** The gas cost [estimateGasCost] derives from an observed price. *)
Definition bufferedCost (gasPrice : Z) : Z :=
  Z.quot (gasPrice * 110) 100 * 200000.

(** What holds of the trade a pass has retained: its profit is above the
    threshold, it is the trade's own quote, a [BigNumber], less the
    buffered cost of a gas price the provider gave to one of the requests
    the pass has made, and the trade was quoted for the amount
    [executeTrade] submits. *)
Definition retainedOk (w : Index.World) (threshold : Z) (s : Index.PassState)
  : Prop :=
  match Index.bestTrade s with
  | None => True
  | Some trade =>
      threshold < Index.bestProfit s
      /\ amount (inputAmount trade) = submittedAmount trade
      /\ exists (n : nat) (gasPrice quoted : Z),
           (n < Index.gasCalls s)%nat
           /\ Index.provider_getGasPrice w n = Ok gasPrice
           /\ raw (executionPrice trade) = BigNumberRaw quoted
           /\ Index.bestProfit s = quoted - bufferedCost gasPrice
  end.

(** An opportunity reported by [evaluateTriangularArbitrage]. *)
Definition isOpportunity (e : Part001.Event) : bool :=
  match e with Part001.TriangularOpportunity _ _ _ _ => true | _ => false end.

(** What stands behind a reported opportunity: the three pairs were
    fetched, the amount was parsed, the profit is that of the three trades
    and passes the test of line 372, and not all three balances were
    insufficient. *)
Definition soundReport (w : Part001.World) (threshold : Q) (e : Part001.Event)
  : Prop :=
  match e with
  | Part001.TriangularOpportunity a1 a2 a3 profit =>
      (0 < profit \/ Number_gt profit threshold = true)
      /\ (Part001.hasSufficientBalance w a1 = true
          \/ Part001.hasSufficientBalance w a2 = true
          \/ Part001.hasSufficientBalance w a3 = true)
      /\ exists pair1 pair2 pair3 amountIn,
           Part001.Fetcher_fetchPairData w a1 a2 = Ok (Some pair1)
           /\ Part001.Fetcher_fetchPairData w a2 a3 = Ok (Some pair2)
           /\ Part001.Fetcher_fetchPairData w a3 a1 = Ok (Some pair3)
           /\ Part001.parsedAmountToTrade w a1 a2 a3 (decimals (token0 pair1))
              = Ok amountIn
           /\ Part001.triangularProfit pair1 pair2 pair3 amountIn = Ok profit
  | _ => True
  end.
End WithSdk.
End Report.

(** ** More scenarios *)

Module MoreScenarios.
Import Demo.
Import Scenario.

(** The Uniswap quote of (A, C) in [twoOpportunities]: 2 C for one A. *)
Definition quoteAC : Trade :=
  {| venue := Uniswap; route := [mkRatePair tokenA tokenC 2 1];
     inputAmount := mkTokenAmount tokenA (10 ^ 18);
     outputAmount := mkTokenAmount tokenC (2 * 10 ^ 18);
     executionPrice := (2 * 10 ^ 18, 10 ^ 18) |}.

(** [oneCandidate] with a provider that answers the first gas price
    request only. *)
Definition gasFailsLater : Index.World :=
  {| Index.coingecko := Index.coingecko oneCandidate;
     Index.Fetcher_fetchPairData := Index.Fetcher_fetchPairData oneCandidate;
     Index.SushiFetcher_fetchPairData :=
       Index.SushiFetcher_fetchPairData oneCandidate;
     Index.provider_getGasPrice :=
       fun n => match n with O => Ok 100 | S _ => Throw "timeout" end;
     Index.Math_random := Index.Math_random oneCandidate;
     Index.encodeSwap := Index.encodeSwap oneCandidate;
     Index.wallet_sendTransaction := Index.wallet_sendTransaction oneCandidate;
     Index.txResponse_hash := Index.txResponse_hash oneCandidate |}.

(** A state in which the Uniswap quote of (A, B) is retained with a profit
    of 5. *)
Definition retainedFive : Index.PassState :=
  {| Index.bestTrade := Some uniswapQuote; Index.bestProfit := 5;
     Index.gasCalls := 1%nat; Index.events := [] |}.

(** The triangle without its third pair. *)
Definition openTriangle : Part001.World :=
  {| Part001.coingecko := Part001.coingecko triangle;
     Part001.Fetcher_fetchPairData :=
       fetchFrom [ (addressA, addressB, Ok (Some pairAB));
                   (addressB, addressC, Ok (Some pairBC)) ]
                 (Throw "no pair");
     Part001.SushiFetcher_fetchPairData :=
       Part001.SushiFetcher_fetchPairData triangle;
     Part001.provider_getGasPrice := Part001.provider_getGasPrice triangle;
     Part001.hasSufficientBalance := Part001.hasSufficientBalance triangle;
     Part001.amountToTrade := Part001.amountToTrade triangle;
     Part001.parsedPairAmountToTrade :=
       Part001.parsedPairAmountToTrade triangle;
     Part001.parsedAmountToTrade := Part001.parsedAmountToTrade triangle |}.

(** The answers of a world of [index.js], given to a pass that runs on
    the imported packages. *)
Definition withImported (w : Index.World (sdk := Demo.sdk))
  : Index.World (sdk := Imported.sdk) :=
  Index.mkWorld (sdk := Imported.sdk)
    (Index.coingecko w)
    (Index.Fetcher_fetchPairData w)
    (Index.SushiFetcher_fetchPairData w)
    (Index.provider_getGasPrice w)
    (Index.Math_random w)
    (fun _ => Ok "0xdata")
    (fun _ _ => Ok "0xhash")
    (fun _ _ => None).

(** The quotes of [oneCandidate] as the two packages make them. *)
Definition uniswapTrade : Trade (sdk := Imported.sdk) :=
  mkTrade (sdk := Imported.sdk) Uniswap [pairAB]
    (mkTokenAmount tokenA (10 ^ 18)) (mkTokenAmount tokenB (10 ^ 18))
    (Uniswap, (10 ^ 18, 10 ^ 18)).

Definition sushiTrade : Trade (sdk := Imported.sdk) :=
  mkTrade (sdk := Imported.sdk) SushiSwap [mkRatePair tokenA tokenB 2 1]
    (mkTokenAmount tokenA (10 ^ 18)) (mkTokenAmount tokenB (2 * 10 ^ 18))
    (SushiSwap, (2 * 10 ^ 18, 10 ^ 18)).

(** A pass of [part_001] over A and B: Uniswap quotes 3 B for one A,
    SushiSwap 2 B, and the balances allow one A to be traded. *)
Definition pairPass : Part001.World :=
  {| Part001.coingecko :=
       Ok [ Part001.mkApiToken "token-a" "a" (Some addressA);
            Part001.mkApiToken "token-b" "b" (Some addressB) ];
     Part001.Fetcher_fetchPairData :=
       fetchFrom [ (addressA, addressB, found tokenA tokenB 3 1) ]
                 (Throw "no pair");
     Part001.SushiFetcher_fetchPairData :=
       fetchFrom [ (addressA, addressB, found tokenA tokenB 2 1) ] (Ok None);
     Part001.provider_getGasPrice := fun _ => Ok 100;
     Part001.hasSufficientBalance := fun _ => true;
     Part001.amountToTrade := fun _ _ => 1%Q;
     Part001.parsedPairAmountToTrade := fun _ _ _ => Ok (10 ^ 18);
     Part001.parsedAmountToTrade := fun _ _ _ _ => Ok (10 ^ 18) |}.

(** What the loops of that pass retain: the SushiSwap quote, whose price
    is the lower one, with the double nearest to
    [2 * 10 ^ 18 - 27500000]. *)
Definition pairPassBest : Part001.Best :=
  {| Part001.bestTrade := Some sushiQuote;
     Part001.bestProfit := Number.Finite 1999999999972499968 |}.

(** The triangle with a third pair in which one A buys half a C. *)
Definition losingTriangle : Part001.World :=
  {| Part001.coingecko := Part001.coingecko triangle;
     Part001.Fetcher_fetchPairData :=
       fetchFrom [ (addressA, addressB, Ok (Some pairAB));
                   (addressB, addressC, Ok (Some pairBC));
                   (addressC, addressA,
                    Ok (Some (mkRatePair tokenA tokenC 1 2))) ]
                 (Throw "no pair");
     Part001.SushiFetcher_fetchPairData :=
       Part001.SushiFetcher_fetchPairData triangle;
     Part001.provider_getGasPrice := Part001.provider_getGasPrice triangle;
     Part001.hasSufficientBalance := Part001.hasSufficientBalance triangle;
     Part001.amountToTrade := Part001.amountToTrade triangle;
     Part001.parsedPairAmountToTrade :=
       Part001.parsedPairAmountToTrade triangle;
     Part001.parsedAmountToTrade := Part001.parsedAmountToTrade triangle |}.

(** The answers of [pairPass], given to a pass that runs on the imported
    packages. *)
Definition pairPassImported : Part001.World (sdk := Imported.sdk) :=
  Part001.mkWorld (sdk := Imported.sdk)
    (Part001.coingecko pairPass)
    (Part001.Fetcher_fetchPairData pairPass)
    (Part001.SushiFetcher_fetchPairData pairPass)
    (Part001.provider_getGasPrice pairPass)
    (Part001.hasSufficientBalance pairPass)
    (Part001.amountToTrade pairPass)
    (Part001.parsedPairAmountToTrade pairPass)
    (Part001.parsedAmountToTrade pairPass).
End MoreScenarios.

(** * Properties *)

Section GasCost.
Context {sdk : Sdk}.

(** The buffered price is the observed price plus a tenth of it, rounded
    down. *)
Lemma buffered_price_bounds (p : Z) :
  0 <= p -> p <= Z.quot (p * 110) 100 /\ 100 * Z.quot (p * 110) 100 <= 110 * p.
Proof.
  intros Hp.
  rewrite Z.quot_div_nonneg by lia.
  pose proof (Z.mul_div_le (p * 110) 100 ltac:(lia)) as Hle.
  split; [| lia].
  apply Z.div_le_lower_bound; lia.
Qed.

(** C7. With the gas price [p] observed on the network, [estimateGasCost]
    returns [(p * 110 / 100) * u] in integer arithmetic, where the gas
    units [u] are 200000 in [index.js] and 250000 in [part_001]. *)
Theorem estimateGasCost_buffered_price
    (p : Z)
    (wi : Index.World) (ti : Trade) (si : Index.PassState)
    (wp : Part001.World) (tp : Trade) (sp : Part001.PassState) :
  Index.provider_getGasPrice wi (Index.gasCalls si) = Ok p ->
  Part001.provider_getGasPrice wp (Part001.gasCalls sp) = Ok p ->
  fst (Index.estimateGasCost wi ti si) = Ok (Z.quot (p * 110) 100 * 200000)
  /\ fst (Part001.estimateGasCost wp tp sp) = Ok (Z.quot (p * 110) 100 * 250000).
Proof.
  intros Hi Hp.
  unfold Index.estimateGasCost, Part001.estimateGasCost, bind,
    Index.getGasPrice, Part001.getGasPrice, lift, ret.
  rewrite Hi, Hp. split; reflexivity.
Qed.

(** X4. For a gas price that is not negative the estimate is never below
    the unbuffered cost, the price times the 200000 gas units that
    [executeTrade] sets as gas limit (line 121), and never more than ten
    percent above it. *)
Lemma estimateGasCost_within_ten_percent
    (p : Z) (w : Index.World) (t : Trade) (s : Index.PassState) :
  0 <= p ->
  Index.provider_getGasPrice w (Index.gasCalls s) = Ok p ->
  exists cost, fst (Index.estimateGasCost w t s) = Ok cost
               /\ p * 200000 <= cost /\ 100 * cost <= 110 * (p * 200000).
Proof.
  intros Hp Hw.
  exists (Z.quot (p * 110) 100 * 200000). split.
  - unfold Index.estimateGasCost, bind, Index.getGasPrice, lift, ret.
    rewrite Hw. reflexivity.
  - destruct (buffered_price_bounds p Hp). lia.
Qed.

(** C10. [estimateGasCost] never looks at its [trade] argument: at the
    same state of the pass (hence the same observed gas price) any two
    trades get the same estimate, in both scripts. *)
Theorem estimateGasCost_ignores_trade :
  (forall (w : Index.World) (t1 t2 : Trade) (s : Index.PassState),
      Index.estimateGasCost w t1 s = Index.estimateGasCost w t2 s)
  /\ (forall (w : Part001.World) (t1 t2 : Trade) (s : Part001.PassState),
      Part001.estimateGasCost w t1 s = Part001.estimateGasCost w t2 s).
Proof. split; intros; reflexivity. Qed.
End GasCost.

Section Numbers.

Lemma roundMagnitude_small (m : Z) :
  m < 2 ^ 53 -> Number.roundMagnitude m = m.
Proof.
  intros H. unfold Number.roundMagnitude.
  apply Z.ltb_lt in H. rewrite H. reflexivity.
Qed.

(** Below [2 ^ 53] an integer is its own double. *)
Lemma ofInteger_safe (a : Z) :
  Z.abs a < 2 ^ 53 -> Number.ofInteger a = Number.Finite a.
Proof.
  intros H. unfold Number.ofInteger.
  rewrite roundMagnitude_small by assumption.
  assert (Hlt : Z.abs a < 2 ^ 1024).
  { apply Z.lt_trans with (m := 2 ^ 53); [assumption |].
    apply Z.pow_lt_mono_r; lia. }
  apply Z.leb_gt in Hlt. rewrite Hlt.
  rewrite Z.mul_comm, Z.abs_sgn. reflexivity.
Qed.

(** From [2 ^ 53] on the double is off by at most half the distance of
    two neighbouring doubles. *)
Lemma roundMagnitude_error (m : Z) :
  2 ^ 53 <= m ->
  Z.abs (Number.roundMagnitude m - m) <= 2 ^ (Z.log2 m - 53).
Proof.
  intros H. unfold Number.roundMagnitude.
  assert (Hm : 0 < m) by (pose proof (Z.pow_pos_nonneg 2 53); lia).
  assert (Hlog : 53 <= Z.log2 m) by (apply Z.log2_le_pow2; assumption).
  destruct (Z.ltb_spec m (2 ^ 53)) as [Hs | _]; [lia |].
  set (e := Z.log2 m - 52).
  assert (He : 1 <= e) by (unfold e; lia).
  replace (Z.log2 m - 53) with (e - 1) by (unfold e; lia).
  rewrite Z.shiftr_div_pow2 by lia.
  rewrite !Z.shiftl_mul_pow2 by lia.
  assert (H2 : 2 ^ e = 2 * 2 ^ (e - 1)).
  { replace e with (Z.succ (e - 1)) at 1 by lia.
    apply Z.pow_succ_r. lia. }
  assert (Hh : 0 < 2 ^ (e - 1)) by (apply Z.pow_pos_nonneg; lia).
  pose proof (Z.div_mod m (2 ^ e) ltac:(lia)) as Hdm.
  pose proof (Z.mod_pos_bound m (2 ^ e) ltac:(lia)) as Hb.
  set (q := m / 2 ^ e) in *. set (r := m mod 2 ^ e) in *.
  replace (m - q * 2 ^ e) with r by lia.
  destruct ((2 ^ (e - 1) <? r) || ((r =? 2 ^ (e - 1)) && Z.odd q)) eqn:E.
  - assert (2 ^ (e - 1) <= r).
    { apply orb_true_iff in E. destruct E as [E | E].
      - apply Z.ltb_lt in E. lia.
      - apply andb_true_iff in E. destruct E as [E _].
        apply Z.eqb_eq in E. lia. }
    nia.
  - apply orb_false_iff in E. destruct E as [E _].
    apply Z.ltb_ge in E. nia.
Qed.

(** [BigNumber.from] returns for integers only, and returns the integer. *)
Lemma fromNumber_integer (x : Q) (b : Z) :
  BigNumber.fromNumber x = Ok b -> (x == inject_Z b)%Q.
Proof.
  unfold BigNumber.fromNumber.
  destruct (Pos.eqb_spec (Qden (Qred x)) 1) as [Hd | _]; [| discriminate].
  cbn [negb].
  destruct (_ || _); [discriminate |].
  intros H. injection H as <-.
  rewrite <- (Qred_correct x) at 1.
  destruct (Qred x) as [n d]. cbn [Qden Qnum] in *. subst d. reflexivity.
Qed.

Lemma fromNumber_of_integer (n : Z) :
  Z.abs n < BigNumber.MAX_SAFE -> BigNumber.fromNumber (inject_Z n) = Ok n.
Proof.
  intros H. unfold BigNumber.fromNumber.
  assert (E : Qred (inject_Z n) = inject_Z n).
  { unfold inject_Z, Qred. cbn [Qnum Qden].
    pose proof (Z.ggcd_gcd n 1) as Hg. pose proof (Z.ggcd_correct_divisors n 1) as Hc.
    destruct (Z.ggcd n 1) as [g [aa bb]]. cbn [fst snd] in *.
    rewrite Z.gcd_1_r in Hg. subst g. destruct Hc as [Ha Hb].
    rewrite !Z.mul_1_l in *. subst aa bb. reflexivity. }
  rewrite E. cbn [Qden Qnum inject_Z Pos.eqb negb].
  destruct (Z.leb_spec BigNumber.MAX_SAFE n); [lia |].
  destruct (Z.leb_spec n (- BigNumber.MAX_SAFE)); [lia |].
  reflexivity.
Qed.
End Numbers.

Section Profit.
Context {sdk : Sdk}.

(** C1, as the code has it. [calculateProfit] subtracts the gas cost from
    what it reads from the execution price, and no value of the input.
    In [index.js] the result is [raw - gasCost] when [raw] is a
    [BigNumber], and the call throws when [raw] is a fraction.  In
    [part_001] the subtraction is one of doubles: the result is the
    difference of the doubles of [raw] and of the gas cost, rounded again,
    which is [raw - gasCost] when the three are below [2 ^ 53] in
    absolute value, and [NaN] when [raw] is a fraction; the function
    receives [amountIn] and its result does not depend on it. *)
Theorem calculateProfit_raw_minus_gas (price : Price) (gasCost : Z) :
  (forall amountOut,
      raw price = BigNumberRaw amountOut ->
      Index.calculateProfit price gasCost = Ok (amountOut - gasCost)
      /\ (forall amountIn,
             Part001.calculateProfit price gasCost amountIn
             = Number.sub (Number.ofInteger amountOut)
                          (Number.ofInteger gasCost))
      /\ (Z.abs amountOut < 2 ^ 53 -> Z.abs gasCost < 2 ^ 53 ->
          Z.abs (amountOut - gasCost) < 2 ^ 53 ->
          forall amountIn,
            Part001.calculateProfit price gasCost amountIn
            = Number.Finite (amountOut - gasCost)))
  /\ (forall numerator denominator,
         raw price = FractionRaw numerator denominator ->
         (exists msg, Index.calculateProfit price gasCost = Throw msg)
         /\ (forall amountIn,
                Part001.calculateProfit price gasCost amountIn = Number.NaN))
  /\ (forall amountIn amountIn' : Q,
         Part001.calculateProfit price gasCost amountIn
         = Part001.calculateProfit price gasCost amountIn').
Proof.
  unfold Index.calculateProfit, Part001.calculateProfit, BigNumber.sub.
  split; [| split].
  - intros amountOut ->. cbn [Part001.toNumber].
    split; [reflexivity |]. split; [reflexivity |].
    intros Ha Hg Hd amountIn.
    rewrite !ofInteger_safe by assumption. cbn [Number.sub].
    apply ofInteger_safe; assumption.
  - intros n d ->. cbn [Part001.toNumber Number.sub].
    split; [eexists; reflexivity | reflexivity].
  - reflexivity.
Qed.
End Profit.

Section Compare.
Context {sdk : Sdk}.

Lemma compare_unfold (uniswapTrade sushiTrade : Trade) :
  Index.compare uniswapTrade sushiTrade
  = let* cheaper := lessThan (executionPrice sushiTrade)
                             (executionPrice uniswapTrade) in
    Ok (if cheaper : bool then sushiTrade else uniswapTrade).
Proof.
  unfold Index.compare, reduce, reduceFrom, pickBetter, andThen.
  destruct (lessThan _ _) as [[] |]; reflexivity.
Qed.

(** When the comparison of the two prices returns, the selection is the
    SushiSwap quote if its price is the lower one and the Uniswap quote
    otherwise; when it throws, so does the selection. *)
Lemma compare_cases (uniswapTrade sushiTrade : Trade) :
  match lessThan (executionPrice sushiTrade) (executionPrice uniswapTrade) with
  | Ok true => Index.compare uniswapTrade sushiTrade = Ok sushiTrade
  | Ok false => Index.compare uniswapTrade sushiTrade = Ok uniswapTrade
  | Throw msg => Index.compare uniswapTrade sushiTrade = Throw msg
  end.
Proof.
  rewrite compare_unfold. unfold andThen.
  destruct (lessThan _ _) as [[] |]; reflexivity.
Qed.
End Compare.

Section Decision.
Context {sdk : Sdk}.

(** Against a number drawn from [[0, 1)] an integer is greater exactly
    when it is at least one. *)
Lemma Number_gt_unit_interval (n : Z) (r : Q) :
  (0 <= r)%Q -> (r < 1)%Q -> Number_gt n r = (1 <=? n).
Proof.
  intros H0 H1. unfold Number_gt.
  destruct (Z.leb_spec 1 n) as [Hn | Hn].
  - destruct (Qle_bool (inject_Z n) r) eqn:E; [| reflexivity].
    apply Qle_bool_iff in E.
    assert (Hq : (inject_Z 1 <= inject_Z n)%Q) by (rewrite <- Zle_Qle; lia).
    exfalso. apply (Qlt_irrefl r).
    apply Qlt_le_trans with (y := 1%Q); [assumption |].
    apply Qle_trans with (y := inject_Z n); assumption.
  - assert (Hq : (inject_Z n <= inject_Z 0)%Q) by (rewrite <- Zle_Qle; lia).
    assert (E : Qle_bool (inject_Z n) r = true).
    { apply Qle_bool_iff. apply Qle_trans with (y := inject_Z 0); assumption. }
    rewrite E. reflexivity.
Qed.

Lemma Number_gt_nonpositive (n : Z) (r : Q) :
  (0 <= r)%Q -> n <= 0 -> Number_gt n r = false.
Proof.
  intros H0 Hn. unfold Number_gt.
  assert (Hq : (inject_Z n <= inject_Z 0)%Q) by (rewrite <- Zle_Qle; lia).
  assert (E : Qle_bool (inject_Z n) r = true).
  { apply Qle_bool_iff. apply Qle_trans with (y := inject_Z 0); assumption. }
  rewrite E. reflexivity.
Qed.

(** The quotient [profit.div(threshold)] is an integer, so the number
    drawn does not matter as long as it lies in [[0, 1)]. *)
Lemma stochasticDecision_any_draw
    (w1 w2 : Index.World) (trade : Trade) (profit threshold : Z)
    (s : Index.PassState) :
  (0 <= Index.Math_random w1)%Q -> (Index.Math_random w1 < 1)%Q ->
  (0 <= Index.Math_random w2)%Q -> (Index.Math_random w2 < 1)%Q ->
  Index.stochasticDecision w1 trade profit threshold s
  = Index.stochasticDecision w2 trade profit threshold s.
Proof.
  intros A1 B1 A2 B2. unfold Index.stochasticDecision, bind, lift, ret.
  destruct (BigNumber.div profit threshold) as [q |]; [| reflexivity].
  destruct (BigNumber.toNumber q) as [n |]; [| reflexivity].
  rewrite !Number_gt_unit_interval by assumption. reflexivity.
Qed.

(** With a profit that is not positive the draw never succeeds against
    the fixed threshold of line 251. *)
Lemma stochasticDecision_nonpositive
    (w : Index.World) (trade : Trade) (profit : Z) (s : Index.PassState) :
  (0 <= Index.Math_random w)%Q -> profit <= 0 ->
  fst (Index.stochasticDecision w trade profit Index.profitThreshold s)
  <> Ok true.
Proof.
  intros Hr Hp. unfold Index.stochasticDecision, bind, lift, ret.
  unfold BigNumber.div, Index.profitThreshold.
  change (10 ^ 15 =? 0) with false. cbv iota.
  assert (Hq : Z.quot profit (10 ^ 15) <= 0).
  { apply Z.quot_le_upper_bound; lia. }
  destruct (BigNumber.toNumber _) as [n |] eqn:E; simpl; [| discriminate].
  unfold BigNumber.toNumber in E.
  destruct (_ && _) in E; [| discriminate].
  injection E as <-.
  rewrite Number_gt_nonpositive by assumption. discriminate.
Qed.

(** The retention test of [index.js] overwrites the retained trade with
    any candidate above the threshold; the profit retained so far is not
    consulted. *)
Lemma retain_overwrites
    (threshold profit : Z) (trade : Trade) (s : Index.PassState) :
  threshold < profit ->
  Index.retain threshold profit trade s
  = (Ok tt, Index.mkPassState (Some trade) profit
              (Index.gasCalls s) (Index.events s)).
Proof.
  intros H. unfold Index.retain, BigNumber.gt.
  rewrite Z.gtb_ltb. apply Z.ltb_lt in H. rewrite H. reflexivity.
Qed.

Lemma retain_keeps
    (threshold profit : Z) (trade : Trade) (s : Index.PassState) :
  profit <= threshold ->
  Index.retain threshold profit trade s = (Ok tt, s).
Proof.
  intros H. unfold Index.retain, BigNumber.gt.
  rewrite Z.gtb_ltb. apply Z.ltb_ge in H. rewrite H. reflexivity.
Qed.

Lemma lastAbove_sofar
    (threshold : Z) (l : list (Z * Trade)) (sofar : option (Z * Trade)) :
  Index.lastAbove threshold l sofar
  = match Index.lastAbove threshold l None with
    | Some c => Some c
    | None => sofar
    end.
Proof.
  revert sofar. induction l as [| c r IH]; intros sofar; simpl.
  - reflexivity.
  - destruct (BigNumber.gt (fst c) threshold).
    + rewrite (IH (Some c)).
      destruct (Index.lastAbove threshold r None); reflexivity.
    + apply IH.
Qed.

(** Over a run of candidates the retention test keeps the last one above
    the threshold, not the most profitable one. *)
Lemma retain_run_keeps_last
    (threshold : Z) (l : list (Z * Trade)) (s : Index.PassState) :
  forEach (fun c => Index.retain threshold (fst c) (snd c)) l s
  = (Ok tt, Index.withBest (Index.lastAbove threshold l None) s).
Proof.
  revert s. induction l as [| [p t] r IH]; intros s.
  - reflexivity.
  - cbn [forEach Index.lastAbove fst snd]. unfold bind.
    unfold Index.retain, Index.setBest, ret.
    destruct (BigNumber.gt p threshold).
    + rewrite IH, (lastAbove_sofar threshold r (Some (p, t))).
      destruct (Index.lastAbove threshold r None) as [[p' t'] |]; reflexivity.
    + apply IH.
Qed.

End Decision.

Section Pass.
Context {sdk : Sdk}.

(** C6. When the token universe is empty (CoinGecko lists no token with
    a Polygon address, or the request fails), a pass of [index.js] ends
    in its normal branch: nothing is retained, no trade is submitted and
    the error handler of the pass is not entered. *)
Theorem empty_universe_completes (w : Index.World) (threshold : Z) :
  fst (Index.fetchTopTokens w Index.initialState) = Ok [] ->
  let s := Index.evaluatePairsAcrossDEXs w threshold in
  Index.opportunityFound s = false
  /\ Index.executed s = false
  /\ Index.failed s = false
  /\ last (Index.events s) Index.NoProfitableTrade = Index.NoProfitableTrade.
Proof.
  unfold Index.evaluatePairsAcrossDEXs, Index.fetchTopTokens, tryCatch, bind,
    lift, ret.
  destruct (Index.coingecko w) as [data | msg]; simpl.
  - intros H. injection H as ->. simpl. repeat split; reflexivity.
  - intros _. repeat split; reflexivity.
Qed.

Lemma fetchPairs_total (w : Index.World) (a1 a2 : string) (s : Index.PassState) :
  exists r s', Index.fetchPairs w a1 a2 s = (Ok r, s')
               /\ Index.bestTrade s' = Index.bestTrade s
               /\ Index.bestProfit s' = Index.bestProfit s.
Proof.
  unfold Index.fetchPairs, tryCatch, lift, bind, ret.
  destruct (Index.Fetcher_fetchPairData w a1 a2) as [r | m]; simpl;
    eauto 6.
Qed.

(** What the claim C5 asks does hold on the Uniswap side: whether
    [Fetcher.fetchPairData] throws or finds nothing, the candidate is
    skipped and the pass goes on. *)
Lemma uniswap_failure_skips_candidate
    (w : Index.World) (threshold : Z) (c : Listing * Listing)
    (s : Index.PassState) :
  Index.Fetcher_fetchPairData w (theString (addr (fst c)))
    (theString (addr (snd c))) <> Ok None ->
  (forall p, Index.Fetcher_fetchPairData w (theString (addr (fst c)))
               (theString (addr (snd c))) <> Ok (Some p)) ->
  fst (Index.evaluateCandidate w threshold c s) = Ok tt.
Proof.
  intros Hnone Hsome. unfold Index.evaluateCandidate.
  destruct (negb _ || negb _); [reflexivity |].
  unfold bind, Index.fetchPairs, tryCatch, lift, ret.
  destruct (Index.Fetcher_fetchPairData w _ _) as [[p |] | m]; simpl.
  - exfalso. apply (Hsome p). reflexivity.
  - congruence.
  - reflexivity.
Qed.

(** It does not hold on the SushiSwap side: an exception of
    [SushiFetcher.fetchPairData] leaves the body of the loop. *)
Lemma sushi_exception_escapes_candidate
    (w : Index.World) (threshold : Z) (l1 l2 : Listing) (a1 a2 : string)
    (uniswapPair : Pair) (uniswapTrade : Trade) (m : string)
    (s : Index.PassState) :
  addr l1 = Some a1 -> addr l2 = Some a2 -> a1 <> "" -> a2 <> "" ->
  Index.Fetcher_fetchPairData w a1 a2 = Ok (Some uniswapPair) ->
  newTrade Uniswap uniswapPair (token0 uniswapPair)
    (parseUnits_one (decimals (token0 uniswapPair))) = Ok uniswapTrade ->
  Index.SushiFetcher_fetchPairData w a1 a2 = Throw m ->
  Index.evaluateCandidate w threshold (l1, l2) s = (Throw m, s).
Proof.
  intros E1 E2 N1 N2 Hu Ht Hs. unfold Index.evaluateCandidate.
  cbn [fst snd]. rewrite E1, E2. unfold truthy.
  apply String.eqb_neq in N1, N2. rewrite N1, N2. simpl.
  unfold bind, Index.fetchPairs, tryCatch, lift, ret.
  rewrite Hu, Ht, Hs. reflexivity.
Qed.

Lemma forEach_throw {S A} (f : A -> M S unit) (x : A) (r : list A)
    (s s' : S) (m : string) :
  f x s = (Throw m, s') -> forEach f (x :: r) s = (Throw m, s').
Proof. intros H. simpl. unfold bind. rewrite H. reflexivity. Qed.

Lemma forEach_app {S A} (f : A -> M S unit) (l1 l2 : list A) (s : S) :
  forEach f (l1 ++ l2) s
  = (forEach f l1 ;;; forEach f l2) s.
Proof.
  revert s. induction l1 as [| x l1 IH]; intros s; simpl.
  - reflexivity.
  - unfold bind in *. destruct (f x s) as [[[] | e] s1]; [apply IH | reflexivity].
Qed.

(** An exception in one candidate ends the scan: the candidates after it
    are not evaluated, and the pass reports the error. *)
Lemma candidate_exception_aborts_pass
    (w : Index.World) (threshold : Z) (before after : list (Listing * Listing))
    (c : Listing * Listing) (s s1 s2 : Index.PassState) (m : string) :
  forEach (Index.evaluateCandidate w threshold) before s = (Ok tt, s1) ->
  Index.evaluateCandidate w threshold c s1 = (Throw m, s2) ->
  tryCatch (forEach (Index.evaluateCandidate w threshold)
              (before ++ c :: after) ;;; Index.decide w)
           (fun msg => Index.emit (Index.PassError msg)) s
  = Index.emit (Index.PassError m) s2.
Proof.
  intros Hb Hc. unfold tryCatch, bind at 1.
  rewrite forEach_app. unfold bind at 1. rewrite Hb.
  rewrite (forEach_throw _ _ _ _ _ _ Hc). reflexivity.
Qed.
End Pass.

Section Triangular.
Context {sdk : Sdk}.

(** In [part_001] the execute branch of line 273 cannot reach
    [executeTrade]. *)
Lemma conclude_execute_throws
    (trade : Trade) (bestProfit : Number.t) (limit : Q)
    (s : Part001.PassState) :
  Number.ge bestProfit limit = true ->
  Part001.conclude (Part001.mkBest (Some trade) bestProfit) limit s
  = (Throw "amountToTrade is not defined", s).
Proof.
  intros H. unfold Part001.conclude, Part001.decision.
  cbn [Part001.bestTrade Part001.bestProfit]. rewrite H. reflexivity.
Qed.

(** With nothing retained, as after the loops over an empty token list,
    lines 272-277 of [part_001] end in the else branch. *)
Lemma conclude_nothing_retained
    (bestProfit : Number.t) (limit : Q) (s : Part001.PassState) :
  Part001.conclude (Part001.mkBest None bestProfit) limit s
  = (Ok tt, Part001.mkPassState (Part001.gasCalls s)
              (Part001.events s ++ [Part001.NoProfitableTrade])).
Proof. reflexivity. Qed.

(** The profit of [part_001] is the last output less the first input,
    with the amounts chained. *)
Lemma triangularProfit_chain
    (pair1 pair2 pair3 : Pair) (amountIn : Z)
    (trade1 trade2 trade3 : Trade) :
  Part001.triangularTrades pair1 pair2 pair3 amountIn
  = Ok (trade1, trade2, trade3) ->
  Part001.triangularProfit pair1 pair2 pair3 amountIn
  = Ok (amount (outputAmount trade3) - amountIn)
  /\ token (inputAmount trade1) = token0 pair1
  /\ token (inputAmount trade2) = token0 pair2
  /\ token (inputAmount trade3) = token0 pair3.
Proof.
  intros H. unfold Part001.triangularProfit. rewrite H. simpl.
  split; [reflexivity |].
  unfold Part001.triangularTrades, andThen, newTrade in H.
  destruct (swapExactInput _ pair1 _ _) as [[o1 p1] |]; [| discriminate].
  cbn [outputAmount token amount] in H.
  destruct (reparseFixed _ o1) as [i2 |]; [| discriminate].
  destruct (swapExactInput _ pair2 _ _) as [[o2 p2] |]; [| discriminate].
  cbn [outputAmount token amount] in H.
  destruct (reparseFixed _ o2) as [i3 |]; [| discriminate].
  destruct (swapExactInput _ pair3 _ _) as [[o3 p3] |]; [| discriminate].
  injection H as <- <- <-. repeat split; reflexivity.
Qed.

(** It is the profit of the cycle [A -> B -> C -> A] when each pair lists
    first the token the cycle enters it with, and amounts survive the
    decimal formatting between two hops. *)
Lemma triangularProfit_cycle_when_aligned
    (A B C : Token) (pair1 pair2 pair3 : Pair) (amountIn : Z) :
  (forall t x, reparseFixed t x = Ok x) ->
  token0 pair1 = A -> token0 pair2 = B -> token0 pair3 = C ->
  Part001.triangularProfit pair1 pair2 pair3 amountIn
  = Part001.cycleProfit A B C pair1 pair2 pair3 amountIn.
Proof.
  intros Hre <- <- <-.
  unfold Part001.triangularProfit, Part001.triangularTrades,
    Part001.cycleProfit, andThen, newTrade.
  destruct (swapExactInput _ pair1 _ _) as [[o1 p1] |]; [| reflexivity].
  cbn [outputAmount token amount fst]. rewrite Hre.
  destruct (swapExactInput _ pair2 _ _) as [[o2 p2] |]; [| reflexivity].
  cbn [outputAmount token amount fst]. rewrite Hre.
  destruct (swapExactInput _ pair3 _ _) as [[o3 p3] |]; reflexivity.
Qed.

Section SortedPairs.
(** The SDK keeps the two tokens of a pair sorted by address. *)
Variable sortsBefore : Token -> Token -> Prop.
Hypothesis sortsBefore_irrefl : forall a, ~ sortsBefore a a.
Hypothesis sortsBefore_trans :
  forall a b c, sortsBefore a b -> sortsBefore b c -> sortsBefore a c.
Hypothesis pair_sorted : forall p : Pair, sortsBefore (token0 p) (token1 p).

(** Then no triangle has all three pairs listing first the token the
    cycle enters them with. *)
Lemma sorted_pairs_never_aligned
    (A B C : Token) (pair1 pair2 pair3 : Pair) :
  token0 pair1 = A -> token1 pair1 = B ->
  token0 pair2 = B -> token1 pair2 = C ->
  token0 pair3 = C -> token1 pair3 = A ->
  False.
Proof.
  intros H1 H1' H2 H2' H3 H3'.
  pose proof (pair_sorted pair1) as S1.
  pose proof (pair_sorted pair2) as S2.
  pose proof (pair_sorted pair3) as S3.
  rewrite H1, H1' in S1. rewrite H2, H2' in S2. rewrite H3, H3' in S3.
  apply (sortsBefore_irrefl A).
  eapply sortsBefore_trans; [exact S1 |].
  eapply sortsBefore_trans; [exact S2 | exact S3].
Qed.
End SortedPairs.
End Triangular.

(** ** The scenarios, evaluated *)

Module Examples.
Import Demo.
Import Scenario.

(** C1, counterexample. For the quote of 1 B for 1 A and the gas cost of
    the scenario, output less input less gas cost is the gas cost lost.
    With [raw] a [BigNumber], the amount out, both scripts compute the
    output less the gas cost; with the price of the imported package
    [index.js] throws and [part_001] computes [NaN]. *)
Lemma calculateProfit_omits_input_value :
  amount (outputAmount uniswapQuote) - amount (inputAmount uniswapQuote)
  - gasCost = - 22000000
  /\ Index.calculateProfit (sdk := Demo.sdk) (executionPrice uniswapQuote)
       gasCost = Ok 999999999978000000
  /\ Part001.calculateProfit (sdk := Demo.sdk) (executionPrice uniswapQuote)
       gasCost 1 = Number.Finite 999999999978000000
  /\ (exists msg,
         Index.calculateProfit (sdk := Imported.sdk)
           (executionPrice MoreScenarios.uniswapTrade) gasCost = Throw msg)
  /\ Part001.calculateProfit (sdk := Imported.sdk)
       (executionPrice MoreScenarios.uniswapTrade) gasCost 1 = Number.NaN.
Proof.
  split; [reflexivity |].
  split; [vm_compute; reflexivity |].
  split; [vm_compute; reflexivity |].
  split; [eexists; vm_compute; reflexivity | reflexivity].
Qed.

Lemma calculateProfit_raw_minus_gas_witness :
  (raw (Sdk := Demo.sdk) (3 * 10 ^ 15, 10 ^ 15) = BigNumberRaw (3 * 10 ^ 15)
   /\ Index.calculateProfit (sdk := Demo.sdk) (3 * 10 ^ 15, 10 ^ 15) gasCost
      = Ok (3 * 10 ^ 15 - gasCost)
   /\ Part001.calculateProfit (sdk := Demo.sdk) (3 * 10 ^ 15, 10 ^ 15)
        gasCost 0 = Number.Finite (3 * 10 ^ 15 - gasCost))
  /\ (raw (Sdk := Imported.sdk) (Uniswap, (3 * 10 ^ 15, 10 ^ 15))
      = FractionRaw (3 * 10 ^ 15) (10 ^ 15)
      /\ (exists msg,
             Index.calculateProfit (sdk := Imported.sdk)
               (Uniswap, (3 * 10 ^ 15, 10 ^ 15)) gasCost = Throw msg)
      /\ Part001.calculateProfit (sdk := Imported.sdk)
           (Uniswap, (3 * 10 ^ 15, 10 ^ 15)) gasCost 0 = Number.NaN).
Proof.
  split.
  - split; [reflexivity |].
    destruct (proj1 (calculateProfit_raw_minus_gas (sdk := Demo.sdk)
                       (3 * 10 ^ 15, 10 ^ 15) gasCost)
                (3 * 10 ^ 15) eq_refl) as (Hi & _ & Hp).
    split; [exact Hi |].
    apply Hp; vm_compute; reflexivity.
  - split; [reflexivity |].
    destruct (proj1 (proj2 (calculateProfit_raw_minus_gas (sdk := Imported.sdk)
                              (Uniswap, (3 * 10 ^ 15, 10 ^ 15)) gasCost))
                (3 * 10 ^ 15) (10 ^ 15) eq_refl) as (Hi & Hp).
    split; [exact Hi | apply Hp].
Defined.

Lemma estimateGasCost_buffered_price_witness :
  Index.provider_getGasPrice twoOpportunities
    (Index.gasCalls Index.initialState) = Ok 100
  /\ Part001.provider_getGasPrice triangle
       (Part001.gasCalls Part001.initialState) = Ok 100
  /\ fst (Index.estimateGasCost twoOpportunities uniswapQuote
            Index.initialState) = Ok (Z.quot (100 * 110) 100 * 200000)
  /\ fst (Part001.estimateGasCost triangle uniswapQuote
            Part001.initialState) = Ok (Z.quot (100 * 110) 100 * 250000).
Proof.
  split; [reflexivity |]. split; [reflexivity |].
  apply (estimateGasCost_buffered_price 100 twoOpportunities uniswapQuote
           Index.initialState triangle uniswapQuote Part001.initialState);
    reflexivity.
Defined.

(** C4, at the failing input. Uniswap quotes 1 B for one A and SushiSwap
    2 B.  Between two prices of one package the comparison returns and
    the quote with the lower price is selected, Uniswap's when the two
    prices are equal.  In the pass the
    receiver of [lessThan] is the price made by the SushiSwap package and
    its argument the price made by the Uniswap package: the comparison
    throws, nothing is selected and the pass ends in its error handler,
    in both scripts. *)
Theorem compare_across_packages_throws :
  Index.compare (sdk := Demo.sdk) uniswapQuote sushiQuote = Ok uniswapQuote
  /\ Index.compare (sdk := Demo.sdk) uniswapQuote sushiQuoteTied
     = Ok uniswapQuote
  /\ newTrade (sdk := Imported.sdk) Uniswap pairAB tokenA (10 ^ 18)
     = Ok MoreScenarios.uniswapTrade
  /\ newTrade (sdk := Imported.sdk) SushiSwap (mkRatePair tokenA tokenB 2 1)
       tokenA (10 ^ 18)
     = Ok MoreScenarios.sushiTrade
  /\ (exists msg,
         Index.compare (sdk := Imported.sdk) MoreScenarios.uniswapTrade
           MoreScenarios.sushiTrade = Throw msg)
  /\ (exists msg,
         Index.events
           (Index.evaluatePairsAcrossDEXs
              (MoreScenarios.withImported oneCandidate) defaultThreshold)
         = [Index.PassError msg])
  /\ Index.opportunityFound
       (Index.evaluatePairsAcrossDEXs
          (MoreScenarios.withImported oneCandidate) defaultThreshold) = false
  /\ (exists msg,
         Part001.events
           (Part001.evaluatePairsAcrossDEXs MoreScenarios.pairPassImported
              Part001.double_0_01)
         = [Part001.PassError msg]).
Proof.
  split; [vm_compute; reflexivity |].
  split; [vm_compute; reflexivity |].
  split; [vm_compute; reflexivity |].
  split; [vm_compute; reflexivity |].
  split; [eexists; vm_compute; reflexivity |].
  split; [eexists; vm_compute; reflexivity |].
  split; [vm_compute; reflexivity |].
  eexists; vm_compute; reflexivity.
Qed.

Lemma empty_universe_completes_witness :
  fst (Index.fetchTopTokens nothingListed Index.initialState) = Ok []
  /\ Index.opportunityFound
       (Index.evaluatePairsAcrossDEXs nothingListed defaultThreshold) = false
  /\ Index.executed
       (Index.evaluatePairsAcrossDEXs nothingListed defaultThreshold) = false
  /\ Index.failed
       (Index.evaluatePairsAcrossDEXs nothingListed defaultThreshold) = false
  /\ last (Index.events
             (Index.evaluatePairsAcrossDEXs nothingListed defaultThreshold))
          Index.NoProfitableTrade = Index.NoProfitableTrade.
Proof.
  split; [reflexivity |].
  apply (empty_universe_completes nothingListed defaultThreshold).
  reflexivity.
Defined.

(** With the imported packages the second trade of the triangle is not
    built: the constructor of [TokenAmount] refuses the decimal string
    that [toFixed()] makes of the first output amount. *)
Lemma triangle_on_imported_packages :
  exists msg,
    Part001.triangularProfit (sdk := Imported.sdk) pairAB pairBC pairCA
      (10 ^ 18) = Throw msg.
Proof. eexists. vm_compute. reflexivity. Qed.

(** C2, at the failing input. Both (A, B) and (A, C) are above the
    threshold; (A, B), met first, has the larger profit, and the pass
    retains and submits (A, C). *)
Theorem pass_retains_last_candidate :
  let s := Index.evaluatePairsAcrossDEXs twoOpportunities defaultThreshold in
  Index.bestProfit
    (snd (Index.evaluateCandidate twoOpportunities defaultThreshold
            (listingA, listingB) Index.initialState))
  = 5 * 10 ^ 18 - gasCost
  /\ Index.bestProfit s = 2 * 10 ^ 18 - gasCost
  /\ option_map route (Index.bestTrade s)
     = Some [mkRatePair tokenA tokenC 2 1]
  /\ Index.executed s = true.
Proof. vm_compute. repeat split; reflexivity. Qed.

(** C5, at the failing input. The SushiSwap fetch of (A, B) throws: the
    pass ends in its error handler, and (A, C), which both venues quote
    above the threshold, is never evaluated. *)
Theorem sushi_exception_aborts_pass :
  let s := Index.evaluatePairsAcrossDEXs sushiThrows defaultThreshold in
  Index.events s = [Index.PassError "call revert exception"]
  /\ Index.opportunityFound s = false
  /\ Index.failed s = true
  /\ Index.opportunityFound
       (snd (Index.evaluateCandidate sushiThrows defaultThreshold
               (listingA, listingC) Index.initialState)) = true.
Proof. vm_compute. repeat split; reflexivity. Qed.

(** C9, at the failing input. The pair fetched for (C, A) lists A first,
    so the third trade sells A for C: the script reports a profit of one
    token where the cycle A -> B -> C -> A loses half a token. *)
Theorem triangular_third_hop_reversed :
  Part001.triangularProfit (sdk := Demo.sdk) pairAB pairBC pairCA (10 ^ 18)
  = Ok (10 ^ 18)
  /\ Part001.cycleProfit (sdk := Demo.sdk) tokenA tokenB tokenC
       pairAB pairBC pairCA (10 ^ 18) = Ok (- (5 * 10 ^ 17))
  /\ (exists trade1 trade2 trade3,
         Part001.triangularTrades (sdk := Demo.sdk) pairAB pairBC pairCA
           (10 ^ 18) = Ok (trade1, trade2, trade3)
         /\ token (inputAmount trade3) = tokenA
         /\ token (outputAmount trade3) = tokenC)
  /\ Part001.events
       (Part001.evaluateTriangularArbitrage triangle
          (Part001.MINIMUM_PROFIT_THRESHOLD None))
     = [Part001.TriangularOpportunity addressA addressB addressC (10 ^ 18)].
Proof.
  split; [vm_compute; reflexivity |].
  split; [vm_compute; reflexivity |].
  split; [| vm_compute; reflexivity].
  do 3 eexists. split; [vm_compute; reflexivity |].
  split; reflexivity.
Qed.
End Examples.

(** ** Whole passes of [index.js] *)

Section PassOutcome.
Context {sdk : Sdk}.

Ltac break_match :=
  match goal with
  | |- context [match ?x with _ => _ end] =>
      lazymatch x with
      | context [match _ with _ => _ end] => fail
      | _ => destruct x eqn:?
      end
  end.

Lemma newTrade_inv (v : Venue) (p : Pair) (tokenIn : Token) (amountIn : Z)
    (t : Trade) :
  newTrade v p tokenIn amountIn = Ok t ->
  venue t = v /\ route t = [p]
  /\ inputAmount t = mkTokenAmount tokenIn amountIn.
Proof.
  unfold newTrade.
  destruct (swapExactInput v p tokenIn amountIn) as [[o pr] |]; [| discriminate].
  intros H; injection H as <-. auto.
Qed.

Lemma newTrade_quoted_at_one (v : Venue) (p : Pair) (t : Trade) :
  newTrade v p (token0 p) (parseUnits_one (decimals (token0 p))) = Ok t ->
  amount (inputAmount t) = Report.submittedAmount t.
Proof.
  intros H. destruct (newTrade_inv _ _ _ _ _ H) as (_ & _ & Hin).
  unfold Report.submittedAmount. rewrite Hin. reflexivity.
Qed.

Lemma compare_one_of_two (a b t : Trade) :
  Index.compare a b = Ok t -> t = a \/ t = b.
Proof.
  rewrite compare_unfold. unfold andThen.
  destruct (lessThan _ _) as [[] |]; intros H; try discriminate;
    injection H as <-; auto.
Qed.

(** What one turn of the inner loop can do to the state, for a candidate
    with two usable addresses: it logs nothing but a failed pair fetch, and
    either leaves the retained trade alone or replaces it by a trade above
    the threshold, after one more request for the gas price. *)
Lemma evaluateCandidate_cases
    (w : Index.World) (T : Z) (c : Listing * Listing) (s : Index.PassState) :
  truthy (addr (fst c)) = true -> truthy (addr (snd c)) = true ->
  let r := fst (Index.evaluateCandidate w T c s) in
  let s' := snd (Index.evaluateCandidate w T c s) in
  (exists ev, Index.events s' = (Index.events s ++ ev)%list
              /\ forallb Report.isFetchError ev = true)
  /\ (Index.gasCalls s <= Index.gasCalls s')%nat
  /\ ((Index.bestTrade s' = Index.bestTrade s
       /\ Index.bestProfit s' = Index.bestProfit s)
      \/ (r = Ok tt
          /\ exists t p quoted,
               Index.bestTrade s' = Some t
               /\ (Index.gasCalls s < Index.gasCalls s')%nat
               /\ Index.provider_getGasPrice w (Index.gasCalls s) = Ok p
               /\ raw (executionPrice t) = BigNumberRaw quoted
               /\ Index.bestProfit s' = quoted - Report.bufferedCost p
               /\ T < Index.bestProfit s'
               /\ amount (inputAmount t) = Report.submittedAmount t)).
Proof.
  intros H1 H2.
  unfold Index.evaluateCandidate. rewrite H1, H2. cbn [negb orb].
  cbv [bind Index.fetchPairs tryCatch lift ret Index.emit
         Index.estimateGasCost Index.getGasPrice Index.retain Index.setBest
         Index.calculateProfit BigNumber.div BigNumber.mul BigNumber.sub
         BigNumber.gt].
  repeat (break_match;
          cbn [fst snd Index.events Index.bestTrade Index.bestProfit
                 Index.gasCalls]).
  all: try (split;
            [ first [ exists []; rewrite app_nil_r; split; reflexivity
                    | eexists; split; reflexivity ]
            | split; [lia | left; split; reflexivity] ]).
  split; [exists []; rewrite app_nil_r; split; reflexivity |].
  split; [lia |].
  right. split; [reflexivity |].
  match goal with
  | Hu : newTrade Uniswap _ _ _ = Ok ?u,
    Hs : newTrade SushiSwap _ _ _ = Ok ?v,
    Hc : Index.compare ?u ?v = Ok ?t,
    Hg : Index.provider_getGasPrice _ _ = Ok ?g,
    Hr : raw (executionPrice ?t) = BigNumberRaw ?q |- _ =>
      exists t, g, q; unfold Report.bufferedCost;
      repeat split; try reflexivity; try assumption;
      [ lia
      | apply Z.gtb_lt; assumption
      | destruct (compare_one_of_two u v t Hc) as [-> | ->];
        eapply newTrade_quoted_at_one; eassumption ]
  end.
Qed.

Lemma candidatePairs_In {A} (l : list A) (c : A * A) :
  In c (candidatePairs l) -> In (fst c) l /\ In (snd c) l.
Proof.
  induction l as [| x r IH]; simpl; [intros [] |].
  intros H. apply in_app_or in H. destruct H as [H | H].
  - apply in_map_iff in H. destruct H as (y & <- & Hy). simpl. auto.
  - destruct (IH H). auto.
Qed.

Lemma retainedOk_same_best
    (w : Index.World) (T : Z) (s s' : Index.PassState) :
  Index.bestTrade s' = Index.bestTrade s ->
  Index.bestProfit s' = Index.bestProfit s ->
  (Index.gasCalls s <= Index.gasCalls s')%nat ->
  Report.retainedOk w T s -> Report.retainedOk w T s'.
Proof.
  unfold Report.retainedOk. intros -> -> Hg.
  destruct (Index.bestTrade s) as [t |]; [| auto].
  intros (HT & Ha & n & p & q & Hn & Hrest).
  split; [assumption |]. split; [assumption |].
  exists n, p, q. split; [lia | assumption].
Qed.

(** The loops keep [retainedOk] and log nothing but failed fetches,
    whether they run to their end or are left by an exception. *)
Lemma scan_keeps_retainedOk
    (w : Index.World) (T : Z) (l : list (Listing * Listing))
    (s : Index.PassState) :
  Forall (fun c => truthy (addr (fst c)) = true
                   /\ truthy (addr (snd c)) = true) l ->
  Report.retainedOk w T s ->
  let s' := snd (forEach (Index.evaluateCandidate w T) l s) in
  Report.retainedOk w T s'
  /\ (Index.gasCalls s <= Index.gasCalls s')%nat
  /\ exists ev, Index.events s' = (Index.events s ++ ev)%list
                /\ forallb Report.isFetchError ev = true.
Proof.
  intros Hl. revert s. induction Hl as [| c r [Hc1 Hc2] _ IH]; intros s Hs.
  - simpl. split; [assumption |]. split; [lia |].
    exists []. rewrite app_nil_r. auto.
  - pose proof (evaluateCandidate_cases w T c s Hc1 Hc2) as Hc.
    cbn zeta in Hc. cbn [forEach]. unfold bind.
    destruct (Index.evaluateCandidate w T c s) as [[[] | m] s1];
      cbn [fst snd] in Hc |- *.
    + destruct Hc as ((ev1 & Hev1 & Hq1) & Hg1 & Hbest).
      assert (Hs1 : Report.retainedOk w T s1).
      { destruct Hbest
          as [[Ht Hp] | (_ & t & p & q & Ht & Hlt & Hg & Hr & Hp & HT & Ha)].
        - eapply retainedOk_same_best; eassumption.
        - unfold Report.retainedOk. rewrite Ht. repeat split; try assumption.
          exists (Index.gasCalls s), p, q. auto. }
      destruct (IH s1 Hs1) as (Hok & Hg2 & ev2 & Hev2 & Hq2).
      split; [assumption |]. split; [lia |].
      exists (ev1 ++ ev2)%list. rewrite Hev2, Hev1, app_assoc.
      split; [reflexivity |]. rewrite forallb_app, Hq1, Hq2. reflexivity.
    + destruct Hc as (Hev & Hg1 & Hbest).
      split; [| split; assumption].
      destruct Hbest as [[Ht Hp] | (Habs & _)]; [| discriminate].
      eapply retainedOk_same_best; eassumption.
Qed.

Lemma fetchTopTokens_cases (w : Index.World) (s : Index.PassState) :
  exists l s' ev,
    Index.fetchTopTokens w s = (Ok l, s')
    /\ Forall (fun t => truthy (addr t) = true) l
    /\ Index.bestTrade s' = Index.bestTrade s
    /\ Index.bestProfit s' = Index.bestProfit s
    /\ Index.gasCalls s' = Index.gasCalls s
    /\ Index.events s' = (Index.events s ++ ev)%list
    /\ forallb Report.isFetchError ev = true.
Proof.
  unfold Index.fetchTopTokens, tryCatch, bind, lift, ret, Index.emit.
  destruct (Index.coingecko w) as [data | m].
  - eexists _, s, []. rewrite app_nil_r. repeat split; try reflexivity.
    apply Forall_forall. intros t Ht. apply filter_In in Ht. apply Ht.
  - eexists [], _, [Index.TokenFetchError m]. repeat split; constructor.
Qed.

(** [executeTrade] returns normally whatever the wallet does; it leaves the
    retained trade alone and logs at least one event, of which at most one
    is a submission, and that of the trade it was given. *)
Lemma executeTrade_cases
    (w : Index.World) (t : Trade) (s : Index.PassState) :
  exists s' ev,
    Index.executeTrade w t s = (Ok tt, s')
    /\ Index.bestTrade s' = Index.bestTrade s
    /\ Index.bestProfit s' = Index.bestProfit s
    /\ (Index.gasCalls s <= Index.gasCalls s')%nat
    /\ Index.events s' = (Index.events s ++ ev)%list
    /\ ev <> []
    /\ forallb Report.isAttempt ev = true
    /\ (Report.submissions ev <= 1)%nat
    /\ (forall t' h, In (Index.TradeSubmitted t' h) ev -> t' = t).
Proof.
  unfold Index.executeTrade.
  cbv [bind tryCatch lift ret Index.emit Index.sendAndConfirm
         Index.estimateGasCost Index.getGasPrice Index.calculateProfit
         BigNumber.div].
  repeat (break_match;
          cbn [fst snd Index.events Index.bestTrade Index.bestProfit
                 Index.gasCalls] in *);
    repeat match goal with
           | H : (_, _) = (_, _) |- _ => injection H as ? ?; subst
           | H : Ok _ = Throw _ |- _ => discriminate H
           | H : Throw _ = Ok _ |- _ => discriminate H
           end;
    cbn [fst snd Index.events Index.bestTrade Index.bestProfit
           Index.gasCalls];
    rewrite <- ?app_assoc; cbn [app];
    eexists _, _;
    (split; [reflexivity |]); cbn [Index.events Index.bestTrade
                                     Index.bestProfit Index.gasCalls];
    rewrite <- ?app_assoc; cbn [app];
    (repeat split; try reflexivity; try discriminate;
     try (cbv; lia); try lia;
     try (intros t' h' Hin; cbn [In] in Hin;
          repeat destruct Hin as [Hin | Hin];
          try discriminate; try contradiction;
          injection Hin as ? ?; subst; reflexivity)).
Qed.

Lemma stochasticDecision_state
    (w : Index.World) (t : Trade) (profit threshold : Z)
    (s : Index.PassState) :
  snd (Index.stochasticDecision w t profit threshold s) = s.
Proof.
  unfold Index.stochasticDecision, bind, lift, ret.
  repeat break_match; reflexivity.
Qed.

(** The decision reads the state and leaves it as it is; it names the
    retained trade, and with a draw that is not negative only when the
    retained profit is positive; it names no trade only when none is
    retained or the retained profit is not positive. *)
Lemma decision_cases (w : Index.World) (s : Index.PassState) :
  snd (Index.decision w s) = s
  /\ (Index.bestTrade s = None -> fst (Index.decision w s) = Ok Skip)
  /\ (forall t, fst (Index.decision w s) = Ok (Execute t) ->
                Index.bestTrade s = Some t
                /\ ((0 <= Index.Math_random w)%Q -> 0 < Index.bestProfit s))
  /\ (fst (Index.decision w s) = Ok Skip ->
      Index.bestTrade s = None \/ Index.bestProfit s <= 0).
Proof.
  unfold Index.decision.
  destruct (Index.bestTrade s) as [trade |];
    [| repeat split; auto; discriminate].
  unfold BigNumber.gt. rewrite Z.gtb_ltb.
  destruct (Z.ltb_spec 0 (Index.bestProfit s)) as [Hpos | Hneg].
  - cbn [fst snd]. repeat split; try discriminate; auto.
    injection H as <-. reflexivity.
  - unfold bind, ret.
    pose proof (stochasticDecision_state w trade (Index.bestProfit s)
                  Index.profitThreshold s) as Hst.
    destruct (Index.stochasticDecision w trade (Index.bestProfit s)
                Index.profitThreshold s) as [[[|] | m] s1] eqn:E;
      cbn [fst snd] in *; subst s1; repeat split; try discriminate; auto.
    + injection H as <-. reflexivity.
    + intros Hr. exfalso.
      apply (stochasticDecision_nonpositive w trade (Index.bestProfit s) s Hr Hneg).
      rewrite E. reflexivity.
Qed.

(** How every pass ends: after events of failed fetches only, either the
    error of the pass, or the report that nothing is traded, with no
    trade retained or a retained profit that is not positive, or the
    events of one call of [executeTrade] on the retained trade. *)
Lemma pass_outcomes (w : Index.World) (T : Z) :
  let s := Index.evaluatePairsAcrossDEXs w T in
  Report.retainedOk w T s
  /\ exists quiet,
       forallb Report.isFetchError quiet = true
       /\ ((exists m, Index.events s = (quiet ++ [Index.PassError m])%list)
           \/ (Index.events s = (quiet ++ [Index.NoProfitableTrade])%list
               /\ (Index.bestTrade s = None \/ Index.bestProfit s <= 0))
           \/ (exists t ev,
                  Index.bestTrade s = Some t
                  /\ Index.events s = (quiet ++ ev)%list
                  /\ ev <> []
                  /\ forallb Report.isAttempt ev = true
                  /\ (Report.submissions ev <= 1)%nat
                  /\ (forall t' h, In (Index.TradeSubmitted t' h) ev -> t' = t)
                  /\ ((0 <= Index.Math_random w)%Q -> 0 < Index.bestProfit s))).
Proof.
  intros s.
  assert (Es : s = Index.evaluatePairsAcrossDEXs w T) by reflexivity.
  clearbody s.
  unfold Index.evaluatePairsAcrossDEXs in Es. unfold bind at 1 in Es.
  destruct (fetchTopTokens_cases w Index.initialState)
    as (l & s0 & ev0 & E & Hl & Ht0 & Hp0 & _ & Hev0 & Hq0).
  rewrite E in Es. cbn [Index.events Index.initialState app] in Hev0.
  assert (Hcand : Forall (fun c => truthy (addr (fst c)) = true
                                   /\ truthy (addr (snd c)) = true)
                         (candidatePairs l)).
  { apply Forall_forall. intros c Hc. apply candidatePairs_In in Hc.
    rewrite Forall_forall in Hl. destruct Hc. split; apply Hl; assumption. }
  assert (Hs0 : Report.retainedOk w T s0).
  { unfold Report.retainedOk. rewrite Ht0. exact I. }
  pose proof (scan_keeps_retainedOk w T (candidatePairs l) s0 Hcand Hs0)
    as Hscan.
  cbn zeta in Hscan.
  unfold tryCatch, Index.scan in Es. unfold bind at 1 in Es.
  destruct (forEach (Index.evaluateCandidate w T) (candidatePairs l) s0)
    as [[[] | m] s1]; cbn [fst snd] in Hscan;
    destruct Hscan as (Hok1 & _ & ev1 & Hev1 & Hq1);
    assert (Hq : forallb Report.isFetchError (ev0 ++ ev1) = true)
      by (rewrite forallb_app, Hq0, Hq1; reflexivity);
    rewrite Hev0 in Hev1.
  - unfold Index.decide in Es. unfold bind at 1 in Es.
    destruct (decision_cases w s1) as (Hst & _ & Hex & Hskip).
    destruct (Index.decision w s1) as [[[t |] | m] s2]; cbn [fst snd] in *;
      subst s2.
    + destruct (Hex t eq_refl) as (Hbt & Hpos).
      destruct (executeTrade_cases w t s1)
        as (s' & ev & Ee & Ht' & Hp' & Hg' & Hev' & Hne & Hatt & Hsub & Hin).
      rewrite Ee in Es. cbn [snd] in Es. subst s.
      split; [eapply retainedOk_same_best; eassumption |].
      exists (ev0 ++ ev1)%list. split; [assumption |].
      right; right. exists t, ev.
      rewrite Ht', Hp', Hev', Hev1. repeat split; auto.
    + subst s. cbn. split; [assumption |].
      exists (ev0 ++ ev1)%list. split; [assumption |].
      right; left. rewrite Hev1. split; [reflexivity | auto].
    + subst s. cbn. split; [assumption |].
      exists (ev0 ++ ev1)%list. split; [assumption |].
      left. exists m. rewrite Hev1. reflexivity.
  - subst s. cbn. split; [assumption |].
    exists (ev0 ++ ev1)%list. split; [assumption |].
    left. exists m. rewrite Hev1. reflexivity.
Qed.
End PassOutcome.

(** ** Further properties of [index.js] *)

Section IndexFurther.
Context {sdk : Sdk}.

Lemma existsb_none_of {A} (P Q : A -> bool) (l : list A) :
  forallb P l = true -> (forall e, P e = true -> Q e = false) ->
  existsb Q l = false.
Proof.
  intros Hl HPQ. induction l as [| e r IH]; [reflexivity |].
  cbn in Hl |- *. apply andb_true_iff in Hl. destruct Hl as [He Hr].
  rewrite (HPQ e He), (IH Hr). reflexivity.
Qed.

Lemma submissions_none_of (P : Index.Event -> bool) (l : list Index.Event) :
  forallb P l = true -> (forall e, P e = true -> Index.isSubmission e = false) ->
  Report.submissions l = 0%nat.
Proof.
  intros Hl HP. unfold Report.submissions.
  induction l as [| e r IH]; [reflexivity |].
  cbn in Hl |- *. apply andb_true_iff in Hl. destruct Hl as [He Hr].
  rewrite (HP e He). apply IH. assumption.
Qed.

Lemma submissions_app (l1 l2 : list Index.Event) :
  Report.submissions (l1 ++ l2) = (Report.submissions l1 + Report.submissions l2)%nat.
Proof. unfold Report.submissions. rewrite filter_app, length_app. reflexivity. Qed.

Lemma existsb_some_of {A} (P : A -> bool) (l : list A) :
  l <> [] -> forallb P l = true -> existsb P l = true.
Proof.
  destruct l as [| e r]; [congruence |].
  intros _ H. cbn in H |- *. apply andb_true_iff in H. destruct H as [-> _].
  reflexivity.
Qed.

(** X1. [fetchTopTokens] never throws: when the request fails it logs the
    failure and returns the empty list; otherwise it returns at most as
    many entries as CoinGecko listed, every one of them with a string
    address that is not empty. *)
Theorem fetchTopTokens_only_addressed
    (w : Index.World) (s : Index.PassState) :
  exists l s',
    Index.fetchTopTokens w s = (Ok l, s')
    /\ Forall (fun t => exists a, addr t = Some a /\ a <> "") l
    /\ match Index.coingecko w with
       | Ok data => (List.length l <= List.length data)%nat /\ s' = s
       | Throw m =>
           l = []
           /\ Index.events s' = (Index.events s ++ [Index.TokenFetchError m])%list
       end.
Proof.
  unfold Index.fetchTopTokens, tryCatch, bind, lift, ret, Index.emit.
  destruct (Index.coingecko w) as [data | m].
  - eexists _, s. split; [reflexivity |]. split.
    + apply Forall_forall. intros t Ht. apply filter_In in Ht.
      destruct Ht as [_ Ht]. unfold truthy in Ht.
      destruct (addr t) as [a |]; [| discriminate].
      exists a. split; [reflexivity |].
      apply String.eqb_neq. destruct (String.eqb a ""); [discriminate | reflexivity].
    + split; [| reflexivity].
      etransitivity; [apply filter_length_le |]. rewrite length_map. apply le_n.
  - eexists [], _. repeat split. constructor.
Qed.

(** X2. The test of line 193 never fires in a pass: every candidate comes
    from [fetchTopTokens], which has dropped the tokens without address, so
    no pass logs an invalid token address. *)
Theorem pass_never_logs_invalid_address (w : Index.World) (T : Z) :
  existsb Report.isInvalidAddress
    (Index.events (Index.evaluatePairsAcrossDEXs w T)) = false.
Proof.
  destruct (pass_outcomes w T) as (_ & quiet & Hq & Hcases).
  assert (Hquiet : existsb Report.isInvalidAddress quiet = false).
  { apply (existsb_none_of Report.isFetchError); [assumption |].
    intros [] E; (discriminate || reflexivity). }
  destruct Hcases as [(m & ->) | [(-> & _) | (t & ev & _ & -> & _ & Hatt & _)]];
    rewrite existsb_app, Hquiet; cbn [orb]; try reflexivity.
  apply (existsb_none_of Report.isAttempt); [assumption |].
  intros [] E; (discriminate || reflexivity).
Qed.

(** X5. [executeTrade] never throws to its caller, whatever the SDK, the
    provider and the wallet do: it returns normally, leaves the retained
    trade and profit as they were and logs at least one event. *)
Theorem executeTrade_never_throws
    (w : Index.World) (trade : Trade) (s : Index.PassState) :
  let s' := snd (Index.executeTrade w trade s) in
  fst (Index.executeTrade w trade s) = Ok tt
  /\ Index.bestTrade s' = Index.bestTrade s
  /\ Index.bestProfit s' = Index.bestProfit s
  /\ (List.length (Index.events s) < List.length (Index.events s'))%nat.
Proof.
  destruct (executeTrade_cases w trade s)
    as (s' & ev & E & Ht & Hp & _ & Hev & Hne & _).
  cbv zeta. rewrite E. cbn [fst snd]. repeat split; try assumption.
  rewrite Hev, length_app. destruct ev; [congruence | cbn; lia].
Qed.

(** X6. [executeTrade] logs the hash of a transaction exactly when the
    swap can be encoded, the gas price is obtained and
    [wallet.sendTransaction] returns.  When the confirmation that follows
    fails, the log has the hash and then the error; when any step before
    fails, it has the error and nothing else. *)
Theorem executeTrade_submits_iff
    (w : Index.World) (trade : Trade) (s : Index.PassState) :
  let s' := snd (Index.executeTrade w trade s) in
  match Index.encodeSwap w trade,
        Index.provider_getGasPrice w (Index.gasCalls s) with
  | Ok _, Ok gasPrice =>
      match Index.wallet_sendTransaction w trade gasPrice,
            Index.txResponse_hash w trade gasPrice with
      | Ok hash, _ =>
          exists after,
            Index.events s'
            = (Index.events s ++ Index.TradeSubmitted trade hash :: after)%list
            /\ after <> []
            /\ Report.submissions after = 0%nat
      | Throw m, Some hash =>
          Index.events s'
          = (Index.events s
             ++ [Index.TradeSubmitted trade hash; Index.TradeError m])%list
      | Throw m, None =>
          Index.events s' = (Index.events s ++ [Index.TradeError m])%list
      end
  | Ok _, Throw m => Index.events s' = (Index.events s ++ [Index.TradeError m])%list
  | Throw m, _ => Index.events s' = (Index.events s ++ [Index.TradeError m])%list
  end.
Proof.
  cbv zeta. unfold Index.executeTrade.
  cbv [bind tryCatch lift ret Index.emit Index.sendAndConfirm
         Index.estimateGasCost Index.getGasPrice Index.calculateProfit
         BigNumber.div].
  destruct (Index.encodeSwap w trade) as [d | m]; [| reflexivity].
  cbn [Index.gasCalls Index.events].
  destruct (Index.provider_getGasPrice w (Index.gasCalls s)) as [g | m];
    [| reflexivity].
  destruct (Index.wallet_sendTransaction w trade g) as [h | m].
  - cbn [fst snd Index.gasCalls Index.events Index.bestTrade Index.bestProfit].
    destruct (Index.provider_getGasPrice w (S (Index.gasCalls s))) as [g' | m];
      [destruct (raw (executionPrice trade)) |];
      cbn; rewrite <- ?app_assoc; cbn [app]; eexists;
      (split; [reflexivity | split; [discriminate | reflexivity]]).
  - destruct (Index.txResponse_hash w trade g) as [h |];
      cbn; rewrite <- ?app_assoc; reflexivity.
Qed.

(** X7. When the transaction has been sent and confirmed but the gas price
    request made for the confirmation message fails, [executeTrade] logs
    the submission and then an error of executing the trade. *)
Theorem confirmed_trade_reported_as_error
    (w : Index.World) (trade : Trade) (s : Index.PassState)
    (data hash m : string) (gasPrice : Z) :
  Index.encodeSwap w trade = Ok data ->
  Index.provider_getGasPrice w (Index.gasCalls s) = Ok gasPrice ->
  Index.wallet_sendTransaction w trade gasPrice = Ok hash ->
  Index.provider_getGasPrice w (S (Index.gasCalls s)) = Throw m ->
  Index.events (snd (Index.executeTrade w trade s))
  = (Index.events s ++ [Index.TradeSubmitted trade hash; Index.TradeError m])%list.
Proof.
  intros He Hg Hs Hg'.
  unfold Index.executeTrade.
  cbv [bind tryCatch lift ret Index.emit Index.sendAndConfirm
         Index.estimateGasCost Index.getGasPrice].
  rewrite He. cbn [Index.gasCalls]. rewrite Hg, Hs.
  cbn [fst snd Index.gasCalls Index.events Index.bestTrade Index.bestProfit].
  rewrite Hg'. cbn. rewrite <- app_assoc. reflexivity.
Qed.

(** X8. For a draw in [[0, 1)], a positive threshold and a profit whose
    quotient by the threshold is a safe integer, [stochasticDecision] is
    the plain test [profit >= threshold]: the number drawn plays no part. *)
Theorem stochasticDecision_is_threshold_test
    (w : Index.World) (trade : Trade) (profit threshold : Z)
    (s : Index.PassState) :
  (0 <= Index.Math_random w)%Q -> (Index.Math_random w < 1)%Q ->
  0 < threshold ->
  Z.abs profit <= BigNumber.MAX_SAFE * threshold ->
  Index.stochasticDecision w trade profit threshold s
  = (Ok (threshold <=? profit), s).
Proof.
  intros H0 H1 Ht Hsafe.
  unfold Index.stochasticDecision, bind, lift, ret, BigNumber.div.
  destruct (Z.eqb_spec threshold 0) as [-> | _]; [lia |].
  assert (Hq : - BigNumber.MAX_SAFE <= Z.quot profit threshold
               <= BigNumber.MAX_SAFE).
  { assert (Habs : Z.abs (Z.quot profit threshold) <= BigNumber.MAX_SAFE).
    { rewrite <- Z.quot_abs by lia. rewrite (Z.abs_eq threshold) by lia.
      apply Z.quot_le_upper_bound; lia. }
    lia. }
  unfold BigNumber.toNumber.
  destruct Hq as [Hlo Hhi]. apply Z.leb_le in Hlo, Hhi. rewrite Hlo, Hhi.
  cbn [andb]. rewrite Number_gt_unit_interval by assumption.
  f_equal. f_equal.
  destruct (Z.leb_spec threshold profit) as [Hge | Hlt].
  - apply Z.leb_le. apply Z.quot_le_lower_bound; lia.
  - apply Z.leb_gt.
    destruct (Z.le_gt_cases 0 profit) as [Hp | Hp].
    + rewrite Z.quot_small by lia. lia.
    + assert (Z.quot profit threshold <= 0)
        by (apply Z.quot_le_upper_bound; lia).
      lia.
Qed.

(** X9. With a draw that is not negative, the condition of lines 253-257
    hands a trade to [executeTrade] exactly when a trade is retained and
    the retained profit is positive; the stochastic branch never adds a
    trade. *)
Theorem decision_executes_iff_positive
    (w : Index.World) (s : Index.PassState) (trade : Trade) :
  (0 <= Index.Math_random w)%Q ->
  (fst (Index.decision w s) = Ok (Execute trade)
   <-> Index.bestTrade s = Some trade /\ 0 < Index.bestProfit s).
Proof.
  intros Hr. split.
  - intros H. destruct (decision_cases w s) as (_ & _ & Hex & _).
    destruct (Hex trade H) as [Hb Hp]. auto.
  - intros [Hb Hp]. unfold Index.decision, BigNumber.gt. rewrite Hb.
    apply Z.gtb_lt in Hp. rewrite Hp. reflexivity.
Qed.

(** X10. A pass has the wallet send at most one transaction. *)
Theorem pass_submits_at_most_once (w : Index.World) (T : Z) :
  (Report.submissions (Index.events (Index.evaluatePairsAcrossDEXs w T)) <= 1)%nat.
Proof.
  destruct (pass_outcomes w T) as (_ & quiet & Hq & Hcases).
  assert (Hquiet : Report.submissions quiet = 0%nat).
  { apply (submissions_none_of Report.isFetchError); [assumption |].
    intros [] E; (discriminate || reflexivity). }
  destruct Hcases as [(m & ->) | [(-> & _) | (t & ev & _ & -> & _ & _ & Hsub & _)]];
    rewrite submissions_app, Hquiet; cbn; lia.
Qed.

(** X11. Every pass ends in exactly one of three ways: it reports the error
    that ended it, or it reports that nothing is traded, or it has called
    [executeTrade]. *)
Theorem pass_ends_one_way (w : Index.World) (T : Z) :
  let s := Index.evaluatePairsAcrossDEXs w T in
  (Index.failed s = true /\ Report.skipped s = false
   /\ Report.attempted s = false)
  \/ (Index.failed s = false /\ Report.skipped s = true
      /\ Report.attempted s = false)
  \/ (Index.failed s = false /\ Report.skipped s = false
      /\ Report.attempted s = true).
Proof.
  cbv zeta. unfold Index.failed, Report.skipped, Report.attempted.
  destruct (pass_outcomes w T) as (_ & quiet & Hq & Hcases).
  assert (Hq1 : existsb Index.isPassError quiet = false).
  { apply (existsb_none_of Report.isFetchError); [assumption |].
    intros [] E; (discriminate || reflexivity). }
  assert (Hq2 : existsb Report.isNoTrade quiet = false).
  { apply (existsb_none_of Report.isFetchError); [assumption |].
    intros [] E; (discriminate || reflexivity). }
  assert (Hq3 : existsb Report.isAttempt quiet = false).
  { apply (existsb_none_of Report.isFetchError); [assumption |].
    intros [] E; (discriminate || reflexivity). }
  destruct Hcases as [(m & ->) | [(-> & _) | (t & ev & _ & -> & Hne & Hatt & _)]];
    rewrite !existsb_app, Hq1, Hq2, Hq3; cbn [orb existsb].
  - left. repeat split.
  - right; left. repeat split.
  - right; right.
    rewrite (existsb_none_of Report.isAttempt Index.isPassError ev Hatt)
      by (intros [] E; (discriminate || reflexivity)).
    rewrite (existsb_none_of Report.isAttempt Report.isNoTrade ev Hatt)
      by (intros [] E; (discriminate || reflexivity)).
    rewrite (existsb_some_of _ ev Hne Hatt). repeat split.
Qed.

(** X12. A pass that reports an error, or that reports that nothing is
    traded, has sent no transaction. *)
Theorem unsuccessful_pass_submits_nothing (w : Index.World) (T : Z) :
  let s := Index.evaluatePairsAcrossDEXs w T in
  Index.failed s = true \/ Report.skipped s = true ->
  Report.submissions (Index.events s) = 0%nat /\ Index.executed s = false.
Proof.
  cbv zeta. unfold Index.failed, Report.skipped, Index.executed.
  destruct (pass_outcomes w T) as (_ & quiet & Hq & Hcases).
  assert (Hq0 : Report.submissions quiet = 0%nat).
  { apply (submissions_none_of Report.isFetchError); [assumption |].
    intros [] E; (discriminate || reflexivity). }
  assert (Hq1 : existsb Index.isPassError quiet = false).
  { apply (existsb_none_of Report.isFetchError); [assumption |].
    intros [] E; (discriminate || reflexivity). }
  assert (Hq2 : existsb Report.isNoTrade quiet = false).
  { apply (existsb_none_of Report.isFetchError); [assumption |].
    intros [] E; (discriminate || reflexivity). }
  assert (Hq3 : existsb Index.isSubmission quiet = false).
  { apply (existsb_none_of Report.isFetchError); [assumption |].
    intros [] E; (discriminate || reflexivity). }
  destruct Hcases as [(m & ->) | [(-> & _) | (t & ev & _ & -> & Hne & Hatt & _)]];
    rewrite !existsb_app, submissions_app, Hq0, Hq1, Hq2, Hq3;
    cbn [orb existsb]; try (intros _; split; reflexivity).
  rewrite (existsb_none_of Report.isAttempt Index.isPassError ev Hatt)
    by (intros [] E; (discriminate || reflexivity)).
  rewrite (existsb_none_of Report.isAttempt Report.isNoTrade ev Hatt)
    by (intros [] E; (discriminate || reflexivity)).
  intros [H | H]; discriminate.
Qed.

(** X13. Whatever transaction a pass sends is for the trade it retained;
    the retained profit exceeds the threshold and zero, it is that trade's
    own quote, a [BigNumber], less the buffered cost of the gas price the
    provider gave to one of the requests the pass has made, and the trade
    was quoted for the one unit [executeTrade] swaps. *)
Theorem submitted_trade_is_the_retained_one
    (w : Index.World) (T : Z) (trade : Trade) (hash : string) :
  let s := Index.evaluatePairsAcrossDEXs w T in
  (0 <= Index.Math_random w)%Q ->
  In (Index.TradeSubmitted trade hash) (Index.events s) ->
  Index.bestTrade s = Some trade
  /\ T < Index.bestProfit s
  /\ 0 < Index.bestProfit s
  /\ amount (inputAmount trade) = Report.submittedAmount trade
  /\ exists (n : nat) (gasPrice quoted : Z),
       (n < Index.gasCalls s)%nat
       /\ Index.provider_getGasPrice w n = Ok gasPrice
       /\ raw (executionPrice trade) = BigNumberRaw quoted
       /\ Index.bestProfit s = quoted - Report.bufferedCost gasPrice.
Proof.
  cbv zeta. intros Hr Hin.
  destruct (pass_outcomes w T) as (Hok & quiet & Hq & Hcases).
  assert (Hnot : ~ In (Index.TradeSubmitted trade hash) quiet).
  { intros Hc. rewrite forallb_forall in Hq. specialize (Hq _ Hc). discriminate. }
  destruct Hcases
    as [(m & E) | [(E & _) | (t & ev & Hb & E & _ & _ & _ & Hsame & Hpos)]];
    rewrite E in Hin; apply in_app_or in Hin;
    destruct Hin as [Hin | Hin]; try contradiction.
  - cbn in Hin. destruct Hin as [Hin | []]. discriminate.
  - cbn in Hin. destruct Hin as [Hin | []]. discriminate.
  - apply Hsame in Hin. subst t.
    unfold Report.retainedOk in Hok. rewrite Hb in Hok.
    destruct Hok as (HT & Ha & Hg). auto.
Qed.
End IndexFurther.

(** ** The loops, skipped candidates and the deadline *)

Section Candidates.
Context {sdk : Sdk}.

Lemma candidatePairs_length {A} (l : list A) :
  (2 * List.length (candidatePairs l) + List.length l
   = List.length l * List.length l)%nat.
Proof.
  induction l as [| x r IH]; [reflexivity |].
  cbn [candidatePairs List.length]. rewrite length_app, length_map. nia.
Qed.

Lemma candidateTriples_length {A} (l : list A) :
  (6 * List.length (candidateTriples l) + 3 * List.length l * List.length l
   = List.length l * List.length l * List.length l + 2 * List.length l)%nat.
Proof.
  induction l as [| x r IH]; [reflexivity |].
  cbn [candidateTriples List.length]. rewrite length_app, length_map.
  pose proof (candidatePairs_length r). nia.
Qed.

(** X14. The two nested loops visit [n (n - 1) / 2] candidate pairs and
    the three nested loops of [part_001] visit [n (n - 1) (n - 2) / 6]
    candidate triples of a list of [n] tokens: none for fewer than two,
    respectively three, tokens. *)
Theorem candidate_counts {A} (l : list A) :
  (2 * List.length (candidatePairs l)
   = List.length l * (List.length l - 1))%nat
  /\ (6 * List.length (candidateTriples l)
      = List.length l * (List.length l - 1) * (List.length l - 2))%nat.
Proof.
  pose proof (candidatePairs_length l) as Hp.
  pose proof (candidateTriples_length l) as Ht.
  destruct (List.length l) as [| [| n]]; split; cbn [Nat.sub] in *; nia.
Qed.

Ltac break_match :=
  match goal with
  | |- context [match ?x with _ => _ end] =>
      lazymatch x with
      | context [match _ with _ => _ end] => fail
      | _ => destruct x eqn:?
      end
  end.

(** X15. A candidate for which Uniswap yields no pair (the fetch throws or
    returns nothing), or for which Uniswap quotes and SushiSwap returns
    nothing, is skipped: the loop goes on, the retained trade and profit
    stay, and no gas price is requested. *)
Theorem unquoted_candidate_is_skipped
    (w : Index.World) (T : Z) (l1 l2 : Listing) (s : Index.PassState) :
  let a1 := theString (addr l1) in
  let a2 := theString (addr l2) in
  (forall p, Index.Fetcher_fetchPairData w a1 a2 <> Ok (Some p))
  \/ (exists p uniswapTrade,
         Index.Fetcher_fetchPairData w a1 a2 = Ok (Some p)
         /\ newTrade Uniswap p (token0 p) (parseUnits_one (decimals (token0 p)))
            = Ok uniswapTrade
         /\ Index.SushiFetcher_fetchPairData w a1 a2 = Ok None) ->
  let s' := snd (Index.evaluateCandidate w T (l1, l2) s) in
  fst (Index.evaluateCandidate w T (l1, l2) s) = Ok tt
  /\ Index.bestTrade s' = Index.bestTrade s
  /\ Index.bestProfit s' = Index.bestProfit s
  /\ Index.gasCalls s' = Index.gasCalls s.
Proof.
  cbv zeta. intros H.
  unfold Index.evaluateCandidate. cbn [fst snd].
  destruct (negb (truthy (addr l1)) || negb (truthy (addr l2)));
    [repeat split |].
  unfold bind, Index.fetchPairs, tryCatch, lift, ret, Index.emit.
  destruct H as [Hnone | (p & ut & Hu & Ht & Hs)].
  - destruct (Index.Fetcher_fetchPairData w _ _) as [[p |] | m];
      [exfalso; apply (Hnone p); reflexivity | |]; repeat split.
  - rewrite Hu, Ht, Hs. repeat split.
Qed.

(** X16. The deadline of a swap is twenty minutes after the time of the
    call, short of less than a second. *)
Theorem deadline_twenty_minutes_ahead (now : Z) :
  now + 1199000 < 1000 * Report.deadline now <= now + 1200000.
Proof.
  unfold Report.deadline.
  pose proof (Z.mod_pos_bound now 1000 ltac:(lia)).
  pose proof (Z.div_mod now 1000 ltac:(lia)). lia.
Qed.
End Candidates.

(** ** Further properties of [part_001] *)

Section Part001Further.
Context {sdk : Sdk}.

Ltac break_match :=
  match goal with
  | |- context [match ?x with _ => _ end] =>
      lazymatch x with
      | context [match _ with _ => _ end] => fail
      | _ => destruct x eqn:?
      end
  end.

(** What the body of the innermost loop does with a triple whose three
    pairs are fetched and whose profit is computed: the outcome of the
    test of line 372 decides. *)
Lemma evaluateTriple_computed
    (w : Part001.World) (T : Q) (l1 l2 l3 : Listing) (s : Part001.PassState)
    (pair1 pair2 pair3 : Pair) (amountIn profit : Z) :
  let a1 := theString (addr l1) in
  let a2 := theString (addr l2) in
  let a3 := theString (addr l3) in
  truthy (addr l1) = true -> truthy (addr l2) = true ->
  truthy (addr l3) = true ->
  Part001.hasSufficientBalance w a1 = true
  \/ Part001.hasSufficientBalance w a2 = true
  \/ Part001.hasSufficientBalance w a3 = true ->
  Part001.Fetcher_fetchPairData w a1 a2 = Ok (Some pair1) ->
  Part001.Fetcher_fetchPairData w a2 a3 = Ok (Some pair2) ->
  Part001.Fetcher_fetchPairData w a3 a1 = Ok (Some pair3) ->
  Part001.parsedAmountToTrade w a1 a2 a3 (decimals (token0 pair1))
  = Ok amountIn ->
  Part001.triangularProfit pair1 pair2 pair3 amountIn = Ok profit ->
  Part001.evaluateTriple w T (l1, l2, l3) s
  = match Part001.reportTest profit T with
    | Ok true => Part001.emit (Part001.TriangularOpportunity a1 a2 a3 profit) s
    | Ok false => (Ok tt, s)
    | Throw msg => (Throw msg, s)
    end.
Proof.
  cbv zeta. intros H1 H2 H3 Hbal F1 F2 F3 Ha Hp.
  unfold Part001.evaluateTriple. rewrite H1, H2, H3. cbn [negb orb].
  assert (Hb : negb (Part001.hasSufficientBalance w (theString (addr l1)))
               && negb (Part001.hasSufficientBalance w (theString (addr l2)))
               && negb (Part001.hasSufficientBalance w (theString (addr l3)))
               = false).
  { destruct Hbal as [-> | [-> | ->]]; cbn [negb andb];
      rewrite ?andb_false_r; reflexivity. }
  rewrite Hb.
  cbv [bind Part001.fetchPairs tryCatch lift ret].
  rewrite F1, F2, F3, Ha, Hp.
  destruct (Part001.reportTest profit T) as [[] |]; reflexivity.
Qed.

(** X17. The test that reports a triangular opportunity (line 372) against
    the threshold of lines 34-35.  A positive profit passes it whatever
    the threshold.  For a profit that is not positive the second
    comparison converts the threshold to a [BigNumber]: with no configured
    threshold, or one that parses to 0, the threshold is 0.01 and the
    conversion throws, so that the loop over the triples is left at the
    first triple whose profit is computed and not positive, and the
    triples after it are not evaluated; with a configured integer [n]
    other than 0 and within the safe range the test is [profit > n],
    which only a negative [n] lets such a profit pass. *)
Theorem triangular_report_condition (parsed : option Z) (profit : Z) :
  let threshold := Part001.MINIMUM_PROFIT_THRESHOLD parsed in
  (0 < profit -> Part001.reportTest profit threshold = Ok true)
  /\ (profit <= 0 -> parsed = None \/ parsed = Some 0 ->
      Part001.reportTest profit threshold = Throw "underflow"
      /\ forall (w : Part001.World) (l1 l2 l3 : Listing)
           (s : Part001.PassState) (pair1 pair2 pair3 : Pair) (amountIn : Z),
           truthy (addr l1) = true -> truthy (addr l2) = true ->
           truthy (addr l3) = true ->
           Part001.hasSufficientBalance w (theString (addr l1)) = true
           \/ Part001.hasSufficientBalance w (theString (addr l2)) = true
           \/ Part001.hasSufficientBalance w (theString (addr l3)) = true ->
           Part001.Fetcher_fetchPairData w (theString (addr l1))
             (theString (addr l2)) = Ok (Some pair1) ->
           Part001.Fetcher_fetchPairData w (theString (addr l2))
             (theString (addr l3)) = Ok (Some pair2) ->
           Part001.Fetcher_fetchPairData w (theString (addr l3))
             (theString (addr l1)) = Ok (Some pair3) ->
           Part001.parsedAmountToTrade w (theString (addr l1))
             (theString (addr l2)) (theString (addr l3))
             (decimals (token0 pair1)) = Ok amountIn ->
           Part001.triangularProfit pair1 pair2 pair3 amountIn = Ok profit ->
           forall rest,
             forEach (Part001.evaluateTriple w threshold)
               ((l1, l2, l3) :: rest) s
             = (Throw "underflow", s))
  /\ (forall n, profit <= 0 -> parsed = Some n -> n <> 0 ->
      Z.abs n < BigNumber.MAX_SAFE ->
      Part001.reportTest profit threshold = Ok (n <? profit)).
Proof.
  cbv zeta. unfold Part001.reportTest, BigNumber.gt.
  split; [| split].
  - intros Hp. apply Z.gtb_lt in Hp. rewrite Hp. reflexivity.
  - intros Hp Hparsed.
    assert (Ht : Part001.MINIMUM_PROFIT_THRESHOLD parsed = Part001.double_0_01)
      by (destruct Hparsed as [-> | ->]; reflexivity).
    assert (Hr : (if profit >? 0 then Ok true
                  else BigNumber.gtNumber profit
                         (Part001.MINIMUM_PROFIT_THRESHOLD parsed))
                 = Throw "underflow").
    { rewrite Ht, Z.gtb_ltb. destruct (Z.ltb_spec 0 profit); [lia |].
      reflexivity. }
    split; [exact Hr |].
    intros w l1 l2 l3 s pair1 pair2 pair3 amountIn H1 H2 H3 Hb F1 F2 F3 Ha Hq
      rest.
    apply forEach_throw.
    rewrite (evaluateTriple_computed w _ l1 l2 l3 s pair1 pair2 pair3
               amountIn profit H1 H2 H3 Hb F1 F2 F3 Ha Hq).
    unfold Part001.reportTest, BigNumber.gt. rewrite Hr. reflexivity.
  - intros n Hp -> Hn Hsafe. unfold Part001.MINIMUM_PROFIT_THRESHOLD.
    destruct (Z.eqb_spec n 0) as [-> | _]; [lia |].
    rewrite Z.gtb_ltb. destruct (Z.ltb_spec 0 profit); [lia |].
    unfold BigNumber.gtNumber. rewrite fromNumber_of_integer by assumption.
    cbn [andThen]. unfold BigNumber.gt. rewrite Z.gtb_ltb. reflexivity.
Qed.

(** X18. A triple of which one pair cannot be fetched (the fetch throws or
    returns nothing) is skipped: the loop goes on, no opportunity is
    reported for it and no amount is parsed or traded. *)
Theorem triple_with_missing_pair_is_skipped
    (w : Part001.World) (T : Q) (l1 l2 l3 : Listing) (s : Part001.PassState) :
  let a1 := theString (addr l1) in
  let a2 := theString (addr l2) in
  let a3 := theString (addr l3) in
  (forall p, Part001.Fetcher_fetchPairData w a1 a2 <> Ok (Some p))
  \/ (forall p, Part001.Fetcher_fetchPairData w a2 a3 <> Ok (Some p))
  \/ (forall p, Part001.Fetcher_fetchPairData w a3 a1 <> Ok (Some p)) ->
  let s' := snd (Part001.evaluateTriple w T (l1, l2, l3) s) in
  fst (Part001.evaluateTriple w T (l1, l2, l3) s) = Ok tt
  /\ existsb Report.isOpportunity (Part001.events s')
     = existsb Report.isOpportunity (Part001.events s).
Proof.
  cbv zeta. intros H.
  unfold Part001.evaluateTriple.
  destruct (negb (truthy (addr l1)) || negb (truthy (addr l2))
            || negb (truthy (addr l3))); [split; reflexivity |].
  destruct (negb (Part001.hasSufficientBalance w _) && _ && _).
  { cbn. rewrite existsb_app. cbn. rewrite orb_false_r. split; reflexivity. }
  cbv [bind Part001.fetchPairs tryCatch lift ret Part001.emit].
  destruct (Part001.Fetcher_fetchPairData w (theString (addr l1))
              (theString (addr l2))) as [[p1 |] | m1];
    destruct (Part001.Fetcher_fetchPairData w (theString (addr l2))
                (theString (addr l3))) as [[p2 |] | m2];
    destruct (Part001.Fetcher_fetchPairData w (theString (addr l3))
                (theString (addr l1))) as [[p3 |] | m3];
    cbn [fst snd Part001.events Part001.gasCalls];
    try (destruct H as [H | [H | H]];
         match goal with
         | H : forall p, Ok (Some ?q) <> Ok (Some p) |- _ =>
             exfalso; apply (H q); reflexivity
         end);
    rewrite <- ?app_assoc, ?existsb_app; cbn [existsb Report.isOpportunity orb];
    rewrite ?orb_false_r; split; reflexivity.
Qed.

(** When the test of line 372 succeeds, the profit is positive or above
    the threshold. *)
Lemma reportTest_true (profit : Z) (T : Q) :
  Part001.reportTest profit T = Ok true ->
  0 < profit \/ Number_gt profit T = true.
Proof.
  unfold Part001.reportTest, BigNumber.gt.
  rewrite Z.gtb_ltb. destruct (Z.ltb_spec 0 profit) as [Hp | Hp]; [auto |].
  unfold BigNumber.gtNumber, andThen.
  destruct (BigNumber.fromNumber T) as [b |] eqn:E; [| discriminate].
  intros H. injection H as H. right.
  apply fromNumber_integer in E. unfold BigNumber.gt in H.
  apply Z.gtb_lt in H. unfold Number_gt.
  destruct (Qle_bool (inject_Z profit) T) eqn:Q; [| reflexivity].
  apply Qle_bool_iff in Q. rewrite E in Q. rewrite <- Zle_Qle in Q. lia.
Qed.
End Part001Further.

(** ** Whole passes of the triangular evaluator, and gas price requests *)

Section TriangularPass.
Context {sdk : Sdk}.

Ltac break_match :=
  match goal with
  | |- context [match ?x with _ => _ end] =>
      lazymatch x with
      | context [match _ with _ => _ end] => fail
      | _ => destruct x eqn:?
      end
  end.

Lemma evaluateTriple_sound
    (w : Part001.World) (T : Q) (c : Listing * Listing * Listing)
    (s : Part001.PassState) :
  exists ev,
    Part001.events (snd (Part001.evaluateTriple w T c s))
    = (Part001.events s ++ ev)%list
    /\ Forall (Report.soundReport w T) ev.
Proof.
  destruct c as [[l1 l2] l3]. unfold Part001.evaluateTriple.
  destruct (negb (truthy (addr l1)) || negb (truthy (addr l2))
            || negb (truthy (addr l3)));
    [exists []; rewrite app_nil_r; split; [reflexivity | constructor] |].
  destruct (negb (Part001.hasSufficientBalance w (theString (addr l1)))
            && negb (Part001.hasSufficientBalance w (theString (addr l2)))
            && negb (Part001.hasSufficientBalance w (theString (addr l3))))
    eqn:Hbal.
  { eexists. split; [reflexivity |]. repeat constructor. }
  assert (Hsome : Part001.hasSufficientBalance w (theString (addr l1)) = true
                  \/ Part001.hasSufficientBalance w (theString (addr l2)) = true
                  \/ Part001.hasSufficientBalance w (theString (addr l3)) = true).
  { destruct (Part001.hasSufficientBalance w (theString (addr l1)));
      [auto |].
    destruct (Part001.hasSufficientBalance w (theString (addr l2)));
      [auto |].
    destruct (Part001.hasSufficientBalance w (theString (addr l3)));
      [auto | discriminate]. }
  cbv [bind Part001.fetchPairs tryCatch lift ret Part001.emit].
  destruct (Part001.Fetcher_fetchPairData w (theString (addr l1))
              (theString (addr l2))) as [[p1 |] | m1] eqn:F1;
    destruct (Part001.Fetcher_fetchPairData w (theString (addr l2))
                (theString (addr l3))) as [[p2 |] | m2] eqn:F2;
    destruct (Part001.Fetcher_fetchPairData w (theString (addr l3))
                (theString (addr l1))) as [[p3 |] | m3] eqn:F3;
    cbn [fst snd Part001.events Part001.gasCalls];
    rewrite <- ?app_assoc; cbn [app];
    try (eexists; split; [reflexivity |]; repeat constructor; fail);
    try (exists []; rewrite app_nil_r; split; [reflexivity | constructor]; fail).
  destruct (Part001.parsedAmountToTrade w _ _ _ _) as [amt |] eqn:Ha;
    [| exists []; rewrite app_nil_r; split; [reflexivity | constructor]].
  destruct (Part001.triangularProfit p1 p2 p3 amt) as [profit |] eqn:Hp;
    [| exists []; rewrite app_nil_r; split; [reflexivity | constructor]].
  destruct (Part001.reportTest profit T) as [[] |] eqn:Hc;
    try (exists []; rewrite app_nil_r; split; [reflexivity | constructor];
         fail).
  eexists. split; [reflexivity |]. constructor; [| constructor].
  cbn. split.
  - apply reportTest_true. exact Hc.
  - split; [exact Hsome |]. exists p1, p2, p3, amt. auto.
Qed.

Lemma triples_sound
    (w : Part001.World) (T : Q) (l : list (Listing * Listing * Listing))
    (s : Part001.PassState) :
  exists ev,
    Part001.events (snd (forEach (Part001.evaluateTriple w T) l s))
    = (Part001.events s ++ ev)%list
    /\ Forall (Report.soundReport w T) ev.
Proof.
  revert s. induction l as [| c r IH]; intros s.
  - exists []. rewrite app_nil_r. split; [reflexivity | constructor].
  - cbn [forEach]. unfold bind.
    destruct (evaluateTriple_sound w T c s) as (ev1 & E1 & H1).
    destruct (Part001.evaluateTriple w T c s) as [[[] | m] s1];
      cbn [snd] in E1 |- *.
    + destruct (IH s1) as (ev2 & E2 & H2).
      exists (ev1 ++ ev2)%list. rewrite E2, E1, app_assoc.
      split; [reflexivity |]. apply Forall_app; auto.
    + exists ev1. auto.
Qed.

(** X21. Every opportunity a pass of [evaluateTriangularArbitrage] reports
    was computed in that pass: the three pairs of the triple were fetched,
    the amount to trade was parsed, the reported profit is the result of
    the three trades less that amount, it is positive or above the
    threshold, and at least one of the three tokens had sufficient
    balance. *)
Theorem reported_opportunity_is_computed
    (w : Part001.World) (T : Q) (a1 a2 a3 : string) (profit : Z) :
  In (Part001.TriangularOpportunity a1 a2 a3 profit)
     (Part001.events (Part001.evaluateTriangularArbitrage w T)) ->
  (0 < profit \/ Number_gt profit T = true)
  /\ (Part001.hasSufficientBalance w a1 = true
      \/ Part001.hasSufficientBalance w a2 = true
      \/ Part001.hasSufficientBalance w a3 = true)
  /\ exists pair1 pair2 pair3 amountIn,
       Part001.Fetcher_fetchPairData w a1 a2 = Ok (Some pair1)
       /\ Part001.Fetcher_fetchPairData w a2 a3 = Ok (Some pair2)
       /\ Part001.Fetcher_fetchPairData w a3 a1 = Ok (Some pair3)
       /\ Part001.parsedAmountToTrade w a1 a2 a3 (decimals (token0 pair1))
          = Ok amountIn
       /\ Part001.triangularProfit pair1 pair2 pair3 amountIn = Ok profit.
Proof.
  intros Hin.
  assert (Hall : Forall (Report.soundReport w T)
                   (Part001.events (Part001.evaluateTriangularArbitrage w T))).
  { unfold Part001.evaluateTriangularArbitrage, Part001.fetchTopTokens.
    cbv [bind tryCatch lift ret Part001.emit].
    destruct (Part001.coingecko w) as [data | m0];
      cbn [fst snd Part001.events Part001.gasCalls].
    - match goal with
      | |- context [forEach ?f ?l ?s0] =>
          destruct (triples_sound w T l s0) as (ev & E & H);
          destruct (forEach f l s0) as [[[] | m] s1]
      end; cbn [snd Part001.events] in E |- *; rewrite E; cbn [app];
        [assumption |].
      apply Forall_app. split; [assumption | repeat constructor].
    - match goal with
      | |- context [forEach ?f ?l ?s0] =>
          destruct (triples_sound w T l s0) as (ev & E & H);
          destruct (forEach f l s0) as [[[] | m] s1]
      end; cbn [snd Part001.events] in E |- *; rewrite E; cbn [app].
      + constructor; [exact I | assumption].
      + constructor; [exact I |]. apply Forall_app.
        split; [assumption | repeat constructor]. }
  rewrite Forall_forall in Hall. exact (Hall _ Hin).
Qed.
End TriangularPass.

Section GasRequests.
Context {sdk : Sdk}.

Ltac break_match :=
  match goal with
  | |- context [match ?x with _ => _ end] =>
      lazymatch x with
      | context [match _ with _ => _ end] => fail
      | _ => destruct x eqn:?
      end
  end.

Lemma evaluateCandidate_gas
    (w : Index.World) (T : Z) (c : Listing * Listing) (s : Index.PassState) :
  (Index.gasCalls (snd (Index.evaluateCandidate w T c s))
   <= S (Index.gasCalls s))%nat.
Proof.
  unfold Index.evaluateCandidate.
  cbv [bind Index.fetchPairs tryCatch lift ret Index.emit
         Index.estimateGasCost Index.getGasPrice Index.retain Index.setBest
         Index.compare reduce BigNumber.div].
  repeat (break_match; cbn [fst snd Index.gasCalls]); lia.
Qed.

Lemma scan_gas
    (w : Index.World) (T : Z) (l : list (Listing * Listing))
    (s : Index.PassState) :
  (Index.gasCalls (snd (forEach (Index.evaluateCandidate w T) l s))
   <= Index.gasCalls s + List.length l)%nat.
Proof.
  revert s. induction l as [| c r IH]; intros s; [cbn; lia |].
  cbn [forEach List.length]. unfold bind.
  pose proof (evaluateCandidate_gas w T c s) as Hc.
  destruct (Index.evaluateCandidate w T c s) as [[[] | m] s1];
    cbn [snd] in Hc |- *; [specialize (IH s1) |]; lia.
Qed.

Lemma executeTrade_gas
    (w : Index.World) (t : Trade) (s : Index.PassState) :
  (Index.gasCalls (snd (Index.executeTrade w t s)) <= Index.gasCalls s + 2)%nat.
Proof.
  unfold Index.executeTrade.
  cbv [bind tryCatch lift ret Index.emit Index.sendAndConfirm
         Index.estimateGasCost Index.getGasPrice Index.calculateProfit
         BigNumber.div].
  repeat (break_match; cbn [fst snd Index.gasCalls] in *);
    repeat match goal with
           | H : (_, _) = (_, _) |- _ => injection H as ? ?; subst
           end;
    cbn [fst snd Index.gasCalls]; lia.
Qed.

(** X22. A pass asks the provider for the gas price at most once for every
    candidate pair of the token list, and at most twice more when it
    executes a trade: at most [n (n - 1) / 2 + 2] times for [n] tokens. *)
Theorem pass_gas_price_requests (w : Index.World) (T : Z) :
  exists tokenList,
    fst (Index.fetchTopTokens w Index.initialState) = Ok tokenList
    /\ (2 * Index.gasCalls (Index.evaluatePairsAcrossDEXs w T)
        <= List.length tokenList * (List.length tokenList - 1) + 4)%nat.
Proof.
  destruct (fetchTopTokens_cases w Index.initialState)
    as (l & s0 & ev0 & E & _ & _ & _ & Hg0 & _).
  exists l. rewrite E. split; [reflexivity |].
  assert (Hg : (Index.gasCalls (Index.evaluatePairsAcrossDEXs w T)
                <= List.length (candidatePairs l) + 2)%nat).
  { unfold Index.evaluatePairsAcrossDEXs. unfold bind at 1. rewrite E.
    unfold tryCatch, Index.scan. unfold bind at 1.
    pose proof (scan_gas w T (candidatePairs l) s0) as Hscan.
    cbn [Index.gasCalls Index.initialState] in Hg0. rewrite Hg0 in Hscan.
    destruct (forEach (Index.evaluateCandidate w T) (candidatePairs l) s0)
      as [[[] | m] s1]; cbn [snd] in Hscan; [| cbn; lia].
    unfold Index.decide. unfold bind at 1.
    destruct (decision_cases w s1) as (Hst & _).
    destruct (Index.decision w s1) as [[[t |] | m] s2]; cbn [snd] in Hst;
      subst s2; [| cbn; lia | cbn; lia].
    pose proof (executeTrade_gas w t s1) as He.
    destruct (Index.executeTrade w t s1) as [[[] | m] s']; cbn [snd] in He |- *;
      cbn; lia. }
  pose proof (candidatePairs_length l) as Hp.
  destruct (List.length l) as [| n]; cbn [Nat.sub] in *; nia.
Qed.
End GasRequests.

(** ** The pair pass of [part_001] and the threshold *)

Section PairPass.
Context {sdk : Sdk}.

Ltac break_match :=
  match goal with
  | |- context [match ?x with _ => _ end] =>
      lazymatch x with
      | context [match _ with _ => _ end] => fail
      | _ => destruct x eqn:?
      end
  end.

(** One turn of the inner loop of [part_001] retains a trade only with a
    positive profit. *)
Lemma evaluateCandidate_positive
    (w : Part001.World) (c : Listing * Listing) (best best' : Part001.Best)
    (s s' : Part001.PassState) :
  (forall t, Part001.bestTrade best = Some t ->
             Number.gt (Part001.bestProfit best) 0 = true) ->
  Part001.evaluateCandidate w c best s = (Ok best', s') ->
  forall t, Part001.bestTrade best' = Some t ->
            Number.gt (Part001.bestProfit best') 0 = true.
Proof.
  intros Hbest. destruct c as [l1 l2]. unfold Part001.evaluateCandidate.
  cbv [bind Part001.fetchPairs tryCatch lift ret Part001.emit
         Part001.estimateGasCost Part001.getGasPrice BigNumber.div].
  repeat (break_match; cbn [fst snd] in *);
    intros H; try discriminate; injection H as <- <-; try exact Hbest.
  cbn [Part001.bestTrade Part001.bestProfit]. intros t _. assumption.
Qed.

Lemma scan_positive
    (w : Part001.World) (l : list (Listing * Listing))
    (best best' : Part001.Best) (s s' : Part001.PassState) :
  (forall t, Part001.bestTrade best = Some t ->
             Number.gt (Part001.bestProfit best) 0 = true) ->
  Part001.scan w l best s = (Ok best', s') ->
  forall t, Part001.bestTrade best' = Some t ->
            Number.gt (Part001.bestProfit best') 0 = true.
Proof.
  revert best s. induction l as [| c r IH]; intros best s Hbest.
  - cbn. unfold ret. intros H. injection H as <- <-. exact Hbest.
  - cbn [Part001.scan]. unfold bind.
    destruct (Part001.evaluateCandidate w c best s) as [[b1 | m] s1] eqn:E;
      [| discriminate].
    apply IH. eapply evaluateCandidate_positive; eassumption.
Qed.

(** [fetchTopTokens] of [part_001] never throws. *)
Lemma part001_fetchTopTokens_total (w : Part001.World) (s : Part001.PassState) :
  exists l s', Part001.fetchTopTokens w s = (Ok l, s').
Proof.
  unfold Part001.fetchTopTokens, tryCatch, bind, lift, ret, Part001.emit.
  destruct (Part001.coingecko w); eauto.
Qed.

(** How a pass of [part_001] ends when its loops run to their end: with
    the reference error of line 273 when line 272 selects the execute
    branch, and with the report that nothing is traded otherwise. *)
Lemma pair_pass_end
    (w : Part001.World) (limit : Q) (tokens : list Listing)
    (best : Part001.Best) (s0 s1 : Part001.PassState) :
  Part001.fetchTopTokens w Part001.initialState = (Ok tokens, s0) ->
  Part001.scan w (candidatePairs tokens) Part001.initialBest s0
  = (Ok best, s1) ->
  Part001.events (Part001.evaluatePairsAcrossDEXs w limit)
  = (Part001.events s1
     ++ [match Part001.decision best limit with
         | Execute _ => Part001.PassError "amountToTrade is not defined"
         | Skip => Part001.NoProfitableTrade
         end])%list.
Proof.
  intros Hf Hs. unfold Part001.evaluatePairsAcrossDEXs.
  unfold bind at 1. rewrite Hf. unfold tryCatch. unfold bind at 1.
  rewrite Hs. unfold Part001.conclude.
  destruct (Part001.decision best limit); reflexivity.
Qed.
End PairPass.

Section Threshold.
Context {sdk : Sdk}.

(** C3, as the code has it. In [index.js] a candidate is retained only
    when its profit is strictly above the minimum profit threshold: a
    candidate whose profit is at most the threshold, equal to it
    included, leaves the retained trade as it was, and the trade a pass
    has retained at its end has a profit strictly above the threshold.
    With a draw of [Math.random] that is not negative, a pass calls
    [executeTrade] exactly when it ends without an error of the pass,
    with a trade retained and a retained profit that is positive.

    In [part_001] a trade is retained only with a positive profit, and
    when the loops run to their end the execute branch of line 272 is
    selected exactly when a trade is retained and the retained profit is
    at least the threshold, equality included; the pass then reports the
    reference error of line 273, and otherwise that nothing is traded. *)
Theorem decision_threshold
    (w : Index.World) (threshold : Z) (wp : Part001.World) (limit : Q) :
  (0 <= Index.Math_random w)%Q ->
  let s := Index.evaluatePairsAcrossDEXs w threshold in
  (forall (profit : Z) (trade : Trade) (s0 : Index.PassState),
      (profit <= threshold ->
       Index.retain threshold profit trade s0 = (Ok tt, s0))
      /\ (threshold < profit ->
          Index.retain threshold profit trade s0
          = (Ok tt, Index.mkPassState (Some trade) profit
                      (Index.gasCalls s0) (Index.events s0))))
  /\ (forall trade, Index.bestTrade s = Some trade ->
                    threshold < Index.bestProfit s)
  /\ (Report.attempted s = true
      <-> Index.failed s = false
          /\ exists trade, Index.bestTrade s = Some trade
                           /\ 0 < Index.bestProfit s)
  /\ (forall tokens s0 best s1,
         Part001.fetchTopTokens wp Part001.initialState = (Ok tokens, s0) ->
         Part001.scan wp (candidatePairs tokens) Part001.initialBest s0
         = (Ok best, s1) ->
         (forall trade, Part001.bestTrade best = Some trade ->
                        Number.gt (Part001.bestProfit best) 0 = true)
         /\ (forall trade,
                Part001.decision best limit = Execute trade
                <-> Part001.bestTrade best = Some trade
                    /\ Number.ge (Part001.bestProfit best) limit = true)
         /\ Part001.events (Part001.evaluatePairsAcrossDEXs wp limit)
            = (Part001.events s1
               ++ [match Part001.decision best limit with
                   | Execute _ =>
                       Part001.PassError "amountToTrade is not defined"
                   | Skip => Part001.NoProfitableTrade
                   end])%list).
Proof.
  intros Hr s. split; [| split; [| split]].
  - intros profit trade s0. split.
    + apply retain_keeps.
    + apply retain_overwrites.
  - intros trade Hb. destruct (pass_outcomes w threshold) as (Hok & _).
    fold s in Hok. unfold Report.retainedOk in Hok. rewrite Hb in Hok.
    apply Hok.
  - destruct (pass_outcomes w threshold) as (_ & quiet & Hq & Hcases).
    fold s in Hcases. unfold Report.attempted, Index.failed.
    assert (Hq1 : existsb Index.isPassError quiet = false).
    { apply (existsb_none_of Report.isFetchError); [assumption |].
      intros [] E; (discriminate || reflexivity). }
    assert (Hq3 : existsb Report.isAttempt quiet = false).
    { apply (existsb_none_of Report.isFetchError); [assumption |].
      intros [] E; (discriminate || reflexivity). }
    destruct Hcases
      as [(m & E) | [(E & Hno) | (t & ev & Hb & E & Hne & Hatt & _ & _ & Hpos)]];
      rewrite E, !existsb_app, Hq1, Hq3; cbn [orb existsb].
    + split; [discriminate | intros [H _]; discriminate].
    + split; [discriminate |].
      intros (_ & trade & Hb & Hp).
      destruct Hno as [Hn | Hn]; [congruence | lia].
    + rewrite (existsb_none_of Report.isAttempt Index.isPassError ev Hatt)
        by (intros [] E'; (discriminate || reflexivity)).
      rewrite (existsb_some_of _ ev Hne Hatt).
      split; [| reflexivity].
      intros _. split; [reflexivity |]. exists t. auto.
  - intros tokens s0 best s1 Hf Hs. split; [| split].
    + eapply scan_positive; [| exact Hs]. discriminate.
    + intros trade. unfold Part001.decision.
      destruct (Part001.bestTrade best) as [t |].
      * destruct (Number.ge (Part001.bestProfit best) limit).
        -- split; [intros H; injection H as <-; auto |].
           intros [H _]. injection H as <-. reflexivity.
        -- split; [discriminate | intros [_ H]; discriminate].
      * split; [discriminate | intros [H _]; discriminate].
    + eapply pair_pass_end; eassumption.
Qed.
End Threshold.

(** ** The further properties on the scenarios *)

Module MoreExamples.
Import Demo.
Import Scenario.
Import MoreScenarios.

(** C3, counterexample. The only candidate of the pass has a profit equal
    to the configured threshold; it is not retained and the pass ends
    without a trade. *)
Lemma profit_equal_to_threshold_not_executed :
  Index.calculateProfit (sdk := Demo.sdk) (executionPrice uniswapQuote) gasCost
  = Ok exactThreshold
  /\ fst ((Index.retain exactThreshold exactThreshold uniswapQuote ;;;
           Index.decision oneCandidate) Index.initialState) = Ok Skip
  /\ Index.events (Index.evaluatePairsAcrossDEXs oneCandidate exactThreshold)
     = [Index.NoProfitableTrade]
  /\ Index.executed (Index.evaluatePairsAcrossDEXs oneCandidate exactThreshold)
     = false
  /\ Report.attempted
       (Index.evaluatePairsAcrossDEXs oneCandidate exactThreshold) = false.
Proof. vm_compute. repeat split; reflexivity. Qed.

Lemma decision_threshold_witness :
  (0 <= Index.Math_random oneCandidate)%Q
  /\ Index.retain exactThreshold exactThreshold uniswapQuote Index.initialState
     = (Ok tt, Index.initialState)
  /\ (Report.attempted
         (Index.evaluatePairsAcrossDEXs oneCandidate exactThreshold) = true
      <-> Index.failed
            (Index.evaluatePairsAcrossDEXs oneCandidate exactThreshold) = false
          /\ exists trade,
               Index.bestTrade
                 (Index.evaluatePairsAcrossDEXs oneCandidate exactThreshold)
               = Some trade
               /\ 0 < Index.bestProfit
                        (Index.evaluatePairsAcrossDEXs oneCandidate
                           exactThreshold))
  /\ Part001.fetchTopTokens pairPass Part001.initialState
     = (Ok [listingA; listingB], Part001.initialState)
  /\ Part001.scan pairPass (candidatePairs [listingA; listingB])
       Part001.initialBest Part001.initialState
     = (Ok pairPassBest, Part001.mkPassState 1 [])
  /\ Part001.decision pairPassBest Part001.double_0_01 = Execute sushiQuote
  /\ Part001.events
       (Part001.evaluatePairsAcrossDEXs pairPass Part001.double_0_01)
     = [Part001.PassError "amountToTrade is not defined"].
Proof.
  assert (Hr : (0 <= Index.Math_random oneCandidate)%Q)
    by (unfold Qle; simpl; lia).
  assert (Hf : Part001.fetchTopTokens pairPass Part001.initialState
               = (Ok [listingA; listingB], Part001.initialState))
    by reflexivity.
  assert (Hs : Part001.scan pairPass (candidatePairs [listingA; listingB])
                 Part001.initialBest Part001.initialState
               = (Ok pairPassBest, Part001.mkPassState 1 []))
    by (vm_compute; reflexivity).
  destruct (decision_threshold oneCandidate exactThreshold pairPass
              Part001.double_0_01 Hr) as (Hretain & _ & Hiff & Hpart).
  destruct (Hpart [listingA; listingB] Part001.initialState pairPassBest
              (Part001.mkPassState 1 []) Hf Hs) as (_ & Hdec & Hev).
  split; [exact Hr |].
  split; [apply (proj1 (Hretain exactThreshold uniswapQuote
                          Index.initialState)); lia |].
  split; [exact Hiff |]. split; [exact Hf |]. split; [exact Hs |].
  split; [apply Hdec; split; reflexivity |].
  rewrite Hev. reflexivity.
Defined.

Lemma estimateGasCost_within_ten_percent_witness :
  0 <= 100
  /\ Index.provider_getGasPrice twoOpportunities
       (Index.gasCalls Index.initialState) = Ok 100
  /\ exists cost,
       fst (Index.estimateGasCost twoOpportunities uniswapQuote
              Index.initialState) = Ok cost
       /\ 100 * 200000 <= cost /\ 100 * cost <= 110 * (100 * 200000).
Proof.
  split; [lia |]. split; [reflexivity |].
  apply (estimateGasCost_within_ten_percent 100 twoOpportunities uniswapQuote
           Index.initialState); [lia | reflexivity].
Defined.

Lemma confirmed_trade_reported_as_error_witness :
  Index.encodeSwap gasFailsLater uniswapQuote = Ok "0xdata"
  /\ Index.provider_getGasPrice gasFailsLater
       (Index.gasCalls Index.initialState) = Ok 100
  /\ Index.wallet_sendTransaction gasFailsLater uniswapQuote 100 = Ok "0xhash"
  /\ Index.provider_getGasPrice gasFailsLater
       (S (Index.gasCalls Index.initialState)) = Throw "timeout"
  /\ Index.events (snd (Index.executeTrade gasFailsLater uniswapQuote
                          Index.initialState))
     = (Index.events Index.initialState
        ++ [Index.TradeSubmitted uniswapQuote "0xhash";
            Index.TradeError "timeout"])%list.
Proof.
  repeat (split; [reflexivity |]).
  apply (confirmed_trade_reported_as_error gasFailsLater uniswapQuote
           Index.initialState "0xdata" "0xhash" "timeout" 100); reflexivity.
Defined.

Lemma stochasticDecision_is_threshold_test_witness :
  (0 <= Index.Math_random oneCandidate)%Q
  /\ (Index.Math_random oneCandidate < 1)%Q
  /\ 0 < Index.profitThreshold
  /\ Z.abs (3 * 10 ^ 15) <= BigNumber.MAX_SAFE * Index.profitThreshold
  /\ Index.stochasticDecision oneCandidate uniswapQuote (3 * 10 ^ 15)
       Index.profitThreshold Index.initialState
     = (Ok (Index.profitThreshold <=? 3 * 10 ^ 15), Index.initialState).
Proof.
  split; [unfold Qle; simpl; lia |]. split; [reflexivity |].
  split; [reflexivity |]. split; [vm_compute; discriminate |].
  apply (stochasticDecision_is_threshold_test oneCandidate uniswapQuote
           (3 * 10 ^ 15) Index.profitThreshold Index.initialState).
  - unfold Qle; simpl; lia.
  - reflexivity.
  - reflexivity.
  - vm_compute; discriminate.
Defined.

Lemma decision_executes_iff_positive_witness :
  (0 <= Index.Math_random oneCandidate)%Q
  /\ (fst (Index.decision oneCandidate retainedFive) = Ok (Execute uniswapQuote)
      <-> Index.bestTrade retainedFive = Some uniswapQuote
          /\ 0 < Index.bestProfit retainedFive).
Proof.
  split; [unfold Qle; simpl; lia |].
  apply (decision_executes_iff_positive oneCandidate retainedFive uniswapQuote).
  unfold Qle; simpl; lia.
Defined.

Lemma unsuccessful_pass_submits_nothing_witness :
  (Index.failed (Index.evaluatePairsAcrossDEXs sushiThrows defaultThreshold)
   = true
   \/ Report.skipped (Index.evaluatePairsAcrossDEXs sushiThrows defaultThreshold)
      = true)
  /\ Report.submissions
       (Index.events (Index.evaluatePairsAcrossDEXs sushiThrows defaultThreshold))
     = 0%nat
  /\ Index.executed (Index.evaluatePairsAcrossDEXs sushiThrows defaultThreshold)
     = false.
Proof.
  split; [left; reflexivity |].
  apply (unsuccessful_pass_submits_nothing sushiThrows defaultThreshold).
  left; reflexivity.
Defined.

Lemma submitted_trade_is_the_retained_one_witness :
  (0 <= Index.Math_random twoOpportunities)%Q
  /\ In (Index.TradeSubmitted quoteAC "0xhash")
        (Index.events
           (Index.evaluatePairsAcrossDEXs twoOpportunities defaultThreshold))
  /\ Index.bestTrade
       (Index.evaluatePairsAcrossDEXs twoOpportunities defaultThreshold)
     = Some quoteAC
  /\ defaultThreshold
     < Index.bestProfit
         (Index.evaluatePairsAcrossDEXs twoOpportunities defaultThreshold).
Proof.
  assert (Hr : (0 <= Index.Math_random twoOpportunities)%Q)
    by (unfold Qle; simpl; lia).
  assert (Hin : In (Index.TradeSubmitted quoteAC "0xhash")
                  (Index.events
                     (Index.evaluatePairsAcrossDEXs twoOpportunities
                        defaultThreshold)))
    by (vm_compute; right; left; reflexivity).
  split; [exact Hr |]. split; [exact Hin |].
  destruct (submitted_trade_is_the_retained_one twoOpportunities
              defaultThreshold quoteAC "0xhash" Hr Hin) as (Hb & HT & _).
  split; assumption.
Defined.

Lemma unquoted_candidate_is_skipped_witness :
  (forall p,
      Index.Fetcher_fetchPairData twoOpportunities
        (theString (addr listingB)) (theString (addr listingC))
      <> Ok (Some p))
  /\ fst (Index.evaluateCandidate twoOpportunities defaultThreshold
            (listingB, listingC) Index.initialState) = Ok tt
  /\ Index.gasCalls
       (snd (Index.evaluateCandidate twoOpportunities defaultThreshold
               (listingB, listingC) Index.initialState))
     = Index.gasCalls Index.initialState.
Proof.
  assert (Hnone : forall p,
             Index.Fetcher_fetchPairData twoOpportunities
               (theString (addr listingB)) (theString (addr listingC))
             <> Ok (Some p))
    by (intros p; vm_compute; discriminate).
  split; [exact Hnone |].
  destruct (unquoted_candidate_is_skipped twoOpportunities defaultThreshold
              listingB listingC Index.initialState (or_introl Hnone))
    as (Hr & _ & _ & Hg).
  split; assumption.
Defined.

Lemma triangular_report_condition_witness :
  (0 < 10 ^ 18
   /\ Part001.reportTest (10 ^ 18) (Part001.MINIMUM_PROFIT_THRESHOLD None)
      = Ok true)
  /\ (- (5 * 10 ^ 17) <= 0
      /\ Part001.triangularProfit pairAB pairBC (mkRatePair tokenA tokenC 1 2)
           (10 ^ 18) = Ok (- (5 * 10 ^ 17))
      /\ Part001.reportTest (- (5 * 10 ^ 17))
           (Part001.MINIMUM_PROFIT_THRESHOLD None) = Throw "underflow"
      /\ forEach (Part001.evaluateTriple losingTriangle
                     (Part001.MINIMUM_PROFIT_THRESHOLD None))
           [(listingA, listingB, listingC)] Part001.initialState
         = (Throw "underflow", Part001.initialState)
      /\ Part001.events
           (Part001.evaluateTriangularArbitrage losingTriangle
              (Part001.MINIMUM_PROFIT_THRESHOLD None))
         = [Part001.TriangularError "underflow"])
  /\ (-1 <= 0 /\ -3 <> 0 /\ Z.abs (-3) < BigNumber.MAX_SAFE
      /\ Part001.reportTest (-1) (Part001.MINIMUM_PROFIT_THRESHOLD (Some (-3)))
         = Ok (-3 <? -1)).
Proof.
  split; [| split].
  - split; [lia |].
    apply (proj1 (triangular_report_condition None (10 ^ 18))). lia.
  - assert (Hp : - (5 * 10 ^ 17) <= 0) by lia.
    assert (Hq : Part001.triangularProfit pairAB pairBC
                   (mkRatePair tokenA tokenC 1 2) (10 ^ 18)
                 = Ok (- (5 * 10 ^ 17))) by (vm_compute; reflexivity).
    destruct (proj1 (proj2 (triangular_report_condition None
                              (- (5 * 10 ^ 17))))
                Hp (or_introl eq_refl)) as (Ht & Hpass).
    split; [exact Hp |]. split; [exact Hq |]. split; [exact Ht |].
    split; [| vm_compute; reflexivity].
    apply (fun H1 H2 H3 Hb F1 F2 F3 Ha =>
             Hpass losingTriangle listingA listingB listingC
               Part001.initialState pairAB pairBC
               (mkRatePair tokenA tokenC 1 2) (10 ^ 18)
               H1 H2 H3 Hb F1 F2 F3 Ha Hq []);
      first [reflexivity | left; reflexivity].
  - split; [lia |]. split; [lia |]. split; [vm_compute; reflexivity |].
    apply (proj2 (proj2 (triangular_report_condition (Some (-3)) (-1))) (-3));
      [lia | reflexivity | lia | vm_compute; reflexivity].
Defined.

Lemma triple_with_missing_pair_is_skipped_witness :
  (forall p,
      Part001.Fetcher_fetchPairData openTriangle (theString (addr listingC))
        (theString (addr listingA)) <> Ok (Some p))
  /\ fst (Part001.evaluateTriple openTriangle Part001.double_0_01
            (listingA, listingB, listingC) Part001.initialState) = Ok tt
  /\ existsb Report.isOpportunity
       (Part001.events
          (snd (Part001.evaluateTriple openTriangle Part001.double_0_01
                  (listingA, listingB, listingC) Part001.initialState)))
     = existsb Report.isOpportunity (Part001.events Part001.initialState).
Proof.
  assert (Hnone : forall p,
             Part001.Fetcher_fetchPairData openTriangle
               (theString (addr listingC)) (theString (addr listingA))
             <> Ok (Some p))
    by (intros p; vm_compute; discriminate).
  split; [exact Hnone |].
  apply (triple_with_missing_pair_is_skipped openTriangle Part001.double_0_01
           listingA listingB listingC Part001.initialState).
  right; right; exact Hnone.
Defined.

Lemma reported_opportunity_is_computed_witness :
  In (Part001.TriangularOpportunity addressA addressB addressC (10 ^ 18))
     (Part001.events
        (Part001.evaluateTriangularArbitrage triangle Part001.double_0_01))
  /\ (0 < 10 ^ 18 \/ Number_gt (10 ^ 18) Part001.double_0_01 = true)
  /\ (Part001.hasSufficientBalance triangle addressA = true
      \/ Part001.hasSufficientBalance triangle addressB = true
      \/ Part001.hasSufficientBalance triangle addressC = true).
Proof.
  assert (Hin : In (Part001.TriangularOpportunity addressA addressB addressC
                      (10 ^ 18))
                  (Part001.events
                     (Part001.evaluateTriangularArbitrage triangle
                        Part001.double_0_01)))
    by (vm_compute; left; reflexivity).
  split; [exact Hin |].
  destruct (reported_opportunity_is_computed triangle Part001.double_0_01
              addressA addressB addressC (10 ^ 18) Hin) as (Hp & Hb & _).
  split; assumption.
Defined.
End MoreExamples.
